(** * Image-Search: the browser-side search client

    A shallow embedding of the three revisions of the furniture search
    client found in the repository:

    - [Furniture] : src/static/furniture.js
    - [Part000]   : src/unnamed/part_000
    - [Part001]   : src/unnamed/part_001

    Conventions of the model.

    - A JavaScript string is a [string]: a sequence of code units, each
      below 256 (the Latin-1 part of UTF-16).  The string primitives below
      ([trim], [toLowerCase], [encodeURIComponent], [escapeHtml]) are
      written out for exactly these code units.
    - A JavaScript value read from a JSON record is a [jsval]; numbers are
      restricted to integers.
    - The page (the DOM elements the scripts hold, the alert boxes shown,
      the console, the requests sent, the timers armed) is one record,
      [page], threaded through a state-and-exception monad [M]: a thrown
      exception keeps every mutation made before it.
    - An [async] function is run to completion against a [network], the
      function that gives the reply to each request; every function here
      sends at most one. *)

From Stdlib Require Import String Ascii List ZArith Lia Bool DecimalString.
Import ListNotations.
Open Scope string_scope.
Set Warnings "-register-all".

(* ================================================================== *)
(** * Part I: definitions *)
(* ================================================================== *)

(** ** JavaScript strings and values *)

Module JS.

Definition code (c : ascii) : nat := nat_of_ascii c.

(** The double quote, which the markup templates are full of. *)
Definition dq : string := String (ascii_of_nat 34) "".
Definition quoted (s : string) : string := dq ++ s ++ dq.

(** [`${n}`] for a non-negative integer such as [items.length]. *)
Definition nat_to_string (n : nat) : string :=
  NilEmpty.string_of_uint (Nat.to_uint n).

(** [`${z}`] for an integer-valued number. *)
Definition Z_to_string (z : Z) : string :=
  NilEmpty.string_of_int (Z.to_int z).

(** [s.startsWith(p)] *)
Definition startsWith (s p : string) : bool := prefix p s.

(** [s.endsWith(p)] *)
Fixpoint endsWith (s p : string) : bool :=
  (s =? p) ||
  match s with
  | "" => false
  | String _ r => endsWith r p
  end.

Fixpoint contains_char (c : ascii) (s : string) : bool :=
  match s with
  | "" => false
  | String d r => Ascii.eqb d c || contains_char c r
  end.

(** [s.split(sep)] for a one-character separator: never empty. *)
Fixpoint split (sep : ascii) (s : string) : list string :=
  match s with
  | "" => [""]
  | String c r =>
      if Ascii.eqb c sep then "" :: split sep r
      else match split sep r with
           | h :: t => String c h :: t
           | [] => [String c ""]
           end
  end.

(** [a.pop()] read as an expression: the last element, [undefined]
    (here the default) on an empty array. *)
Definition pop (l : list string) : string := last l "".

(** White space and line terminators of [String.prototype.trim]:
    TAB, LF, VT, FF, CR, SP and NBSP. *)
Definition is_space (c : ascii) : bool :=
  let n := code c in
  ((n =? 9) || (n =? 10) || (n =? 11) || (n =? 12) || (n =? 13)
   || (n =? 32) || (n =? 160))%nat.

Fixpoint trimStart (s : string) : string :=
  match s with
  | "" => ""
  | String c r => if is_space c then trimStart r else s
  end.

Fixpoint trimEnd (s : string) : string :=
  match s with
  | "" => ""
  | String c r =>
      match trimEnd r with
      | "" => if is_space c then "" else String c ""
      | r' => String c r'
      end
  end.

(** [s.trim()] *)
Definition trim (s : string) : string := trimEnd (trimStart s).

Definition lower_char (c : ascii) : ascii :=
  let n := code c in
  if (((65 <=? n) && (n <=? 90))
      || ((192 <=? n) && (n <=? 214))
      || ((216 <=? n) && (n <=? 222)))%nat
  then ascii_of_nat (n + 32) else c.

Fixpoint map_chars (f : ascii -> ascii) (s : string) : string :=
  match s with
  | "" => ""
  | String c r => String (f c) (map_chars f r)
  end.

(** [s.toLowerCase()] *)
Definition toLowerCase (s : string) : string := map_chars lower_char s.

Fixpoint flat_map_chars (f : ascii -> string) (s : string) : string :=
  match s with
  | "" => ""
  | String c r => f c ++ flat_map_chars f r
  end.

Definition hex_digit (n : nat) : ascii :=
  if (n <? 10)%nat then ascii_of_nat (48 + n) else ascii_of_nat (55 + n).

Definition percent (byte : nat) : string :=
  String "%" (String (hex_digit (byte / 16))
                (String (hex_digit (byte mod 16)) "")).

(** Characters [encodeURIComponent] leaves alone:
    [A-Z a-z 0-9 - _ . ! ~ * ' ( )]. *)
Definition uri_unreserved (c : ascii) : bool :=
  let n := code c in
  (((65 <=? n) && (n <=? 90)) || ((97 <=? n) && (n <=? 122))
   || ((48 <=? n) && (n <=? 57))
   || (n =? 45) || (n =? 95) || (n =? 46) || (n =? 33) || (n =? 126)
   || (n =? 42) || (n =? 39) || (n =? 40) || (n =? 41))%nat.

(** One code unit, percent-encoded through its UTF-8 bytes. *)
Definition encode_char (c : ascii) : string :=
  let n := code c in
  if uri_unreserved c then String c ""
  else if (n <? 128)%nat then percent n
  else percent (192 + n / 64) ++ percent (128 + n mod 64).

(** [encodeURIComponent(s)] *)
Definition encodeURIComponent (s : string) : string :=
  flat_map_chars encode_char s.

(** Values found in a decoded JSON record. *)
Inductive jsval : Type :=
| JUndefined
| JNull
| JStr (s : string)
| JNum (z : Z).

(** ToBoolean *)
Definition truthy (v : jsval) : bool :=
  match v with
  | JUndefined | JNull => false
  | JStr s => negb (s =? "")
  | JNum z => negb (z =? 0)%Z
  end.

(** [a || b] *)
Definition or_else (a b : jsval) : jsval := if truthy a then a else b.

Definition nullish (v : jsval) : bool :=
  match v with
  | JUndefined | JNull => true
  | _ => false
  end.

(** [a ?? b] *)
Definition coalesce (a b : jsval) : jsval := if nullish a then b else a.

(** ToString, as a template literal applies it. *)
Definition to_string (v : jsval) : string :=
  match v with
  | JUndefined => "undefined"
  | JNull => "null"
  | JStr s => s
  | JNum z => Z_to_string z
  end.

Fixpoint join (l : list string) : string :=
  match l with
  | [] => ""
  | s :: r => s ++ join r
  end.

End JS.

Import JS.

Declare Scope js_scope.
Infix "||'" := or_else (at level 50, left associativity) : js_scope.
Infix "??" := coalesce (at level 51, right associativity) : js_scope.
Open Scope js_scope.

(** ** The document and the page state *)

Module Dom.

(** A child of an element: either an element built with
    [document.createElement], or the nodes the browser's parser builds
    from markup assigned through [innerHTML]. *)
Inductive node : Type :=
| Parsed (markup : string)
| Elem (tag className : string) (attrs : list (string * string))
       (children : list node).

(** [el.innerHTML = markup] replaces the children of [el] by these. *)
Definition parse (markup : string) : list node :=
  if markup =? "" then [] else [Parsed markup].

Definition nl : string := String (ascii_of_nat 10) "".
Definition nbsp : ascii := ascii_of_nat 160.

(** Serialisation of a text node, as reading [innerHTML] performs it. *)
Definition escape_char (c : ascii) : string :=
  if Ascii.eqb c "&" then "&amp;"
  else if Ascii.eqb c "<" then "&lt;"
  else if Ascii.eqb c ">" then "&gt;"
  else if Ascii.eqb c nbsp then "&nbsp;"
  else String c "".

Definition serialize_text (s : string) : string :=
  flat_map_chars escape_char s.

(** What a markup string shows as text where it holds no tag: the four
    character references above are decoded, everything else is literal. *)
Fixpoint decode_text (s : string) : string :=
  match s with
  | String "&" (String "a" (String "m" (String "p" (String ";" r)))) =>
      String "&" (decode_text r)
  | String "&" (String "l" (String "t" (String ";" r))) =>
      String "<" (decode_text r)
  | String "&" (String "g" (String "t" (String ";" r))) =>
      String ">" (decode_text r)
  | String "&" (String "n" (String "b" (String "s" (String "p"
      (String ";" r))))) =>
      String nbsp (decode_text r)
  | String c r => String c (decode_text r)
  | "" => ""
  end.

Definition is_letter (c : ascii) : bool :=
  let n := code c in
  (((65 <=? n) && (n <=? 90)) || ((97 <=? n) && (n <=? 122)))%nat.

Definition is_name_char (c : ascii) : bool :=
  let n := code c in
  is_letter c || ((48 <=? n) && (n <=? 57))%nat.

Fixpoint tag_name (s : string) : string :=
  match s with
  | "" => ""
  | String c r => if is_name_char c then String c (tag_name r) else ""
  end.

(** The start tags the tokenizer opens while reading element content:
    a [<] directly followed by a letter opens a tag. *)
Fixpoint start_tags (s : string) : list string :=
  match s with
  | "" => []
  | String c r =>
      if Ascii.eqb c "<" then
        match r with
        | String d _ =>
            if is_letter d then tag_name r :: start_tags r
            else start_tags r
        | "" => []
        end
      else start_tags r
  end.

(** The result blocks among the children of the results region: the
    elements of class [result]. *)
Definition is_result_block (n : node) : bool :=
  match n with
  | Elem _ cls _ _ => cls =? "result"
  | Parsed _ => false
  end.

Definition result_blocks (l : list node) : nat :=
  length (filter is_result_block l).

End Dom.

Import Dom.

(** A raw result record, as decoded from the JSON reply.  An absent field
    reads [JUndefined]; [colors] is [None] when absent or [null]. *)
Record item : Type := mkItem {
  item_name : jsval;
  description : jsval;
  image_path : jsval;
  final_price : jsval;
  special_price : jsval;
  price : jsval;
  colors : option (list string)
}.

(** What [resp.json()] resolves to: it rejects when the body is not JSON;
    the body may be [null]; otherwise an object whose [results] field is
    [None] when absent or [null]. *)
Inductive json_body : Type :=
| NotJson
| JsonNull
| JsonObject (results : option (list item)) (did_you_mean : jsval).

Record response : Type := mkResponse {
  status : nat;
  text : string;
  json : json_body
}.

(** [resp.ok] *)
Definition ok (r : response) : bool :=
  ((200 <=? status r) && (status r <=? 299))%nat.

Inductive fetch_result : Type :=
| NetworkFailure
| Reply (r : response).

(** A request handed to [fetch]: the form data is a list of fields. *)
Record request : Type := mkRequest {
  method : string;
  url : string;
  form : list (string * string)
}.

Definition GET (u : string) : request := mkRequest "GET" u [].

(** The network, as the page sees it. *)
Definition network : Type := request -> fetch_result.

(** Exceptions; the engine's message that follows the name is left out. *)
Inductive exn : Type :=
| TypeError
| SyntaxError
| FetchError.

Definition exn_to_string (e : exn) : string :=
  match e with
  | TypeError => "TypeError"
  | SyntaxError => "SyntaxError"
  | FetchError => "TypeError: Failed to fetch"
  end.

Record page : Type := mkPage {
  resultsDiv : list node;          (* children of #results *)
  resultsCount : string;           (* textContent of #resultsCount *)
  suggestionDiv : list node;       (* children of #suggestion *)
  textInput : string;              (* value of #textQuery *)
  imageQuery : list string;        (* files of #imageQuery *)
  debounceTimer : option nat;      (* the timer handle, undefined at load *)
  timers : list (nat * nat);       (* armed timers: handle, due time *)
  next_timer : nat;
  clock : nat;                     (* milliseconds *)
  alerts : list string;            (* alert boxes shown, oldest first *)
  console : list string;           (* console.error lines *)
  requests : list request          (* requests sent, oldest first *)
}.

Definition set_resultsDiv (v : list node) (s : page) : page :=
  mkPage v (resultsCount s) (suggestionDiv s) (textInput s) (imageQuery s)
    (debounceTimer s) (timers s) (next_timer s) (clock s) (alerts s)
    (console s) (requests s).

Definition set_resultsCount (v : string) (s : page) : page :=
  mkPage (resultsDiv s) v (suggestionDiv s) (textInput s) (imageQuery s)
    (debounceTimer s) (timers s) (next_timer s) (clock s) (alerts s)
    (console s) (requests s).

Definition set_suggestionDiv (v : list node) (s : page) : page :=
  mkPage (resultsDiv s) (resultsCount s) v (textInput s) (imageQuery s)
    (debounceTimer s) (timers s) (next_timer s) (clock s) (alerts s)
    (console s) (requests s).

Definition set_textInput (v : string) (s : page) : page :=
  mkPage (resultsDiv s) (resultsCount s) (suggestionDiv s) v (imageQuery s)
    (debounceTimer s) (timers s) (next_timer s) (clock s) (alerts s)
    (console s) (requests s).

Definition set_debounceTimer (v : option nat) (s : page) : page :=
  mkPage (resultsDiv s) (resultsCount s) (suggestionDiv s) (textInput s)
    (imageQuery s) v (timers s) (next_timer s) (clock s) (alerts s)
    (console s) (requests s).

Definition set_timers (v : list (nat * nat)) (s : page) : page :=
  mkPage (resultsDiv s) (resultsCount s) (suggestionDiv s) (textInput s)
    (imageQuery s) (debounceTimer s) v (next_timer s) (clock s) (alerts s)
    (console s) (requests s).

Definition set_next_timer (v : nat) (s : page) : page :=
  mkPage (resultsDiv s) (resultsCount s) (suggestionDiv s) (textInput s)
    (imageQuery s) (debounceTimer s) (timers s) v (clock s) (alerts s)
    (console s) (requests s).

Definition set_clock (v : nat) (s : page) : page :=
  mkPage (resultsDiv s) (resultsCount s) (suggestionDiv s) (textInput s)
    (imageQuery s) (debounceTimer s) (timers s) (next_timer s) v (alerts s)
    (console s) (requests s).

Definition set_alerts (v : list string) (s : page) : page :=
  mkPage (resultsDiv s) (resultsCount s) (suggestionDiv s) (textInput s)
    (imageQuery s) (debounceTimer s) (timers s) (next_timer s) (clock s) v
    (console s) (requests s).

Definition set_console (v : list string) (s : page) : page :=
  mkPage (resultsDiv s) (resultsCount s) (suggestionDiv s) (textInput s)
    (imageQuery s) (debounceTimer s) (timers s) (next_timer s) (clock s)
    (alerts s) v (requests s).

Definition set_requests (v : list request) (s : page) : page :=
  mkPage (resultsDiv s) (resultsCount s) (suggestionDiv s) (textInput s)
    (imageQuery s) (debounceTimer s) (timers s) (next_timer s) (clock s)
    (alerts s) (console s) v.

(** The page as loaded: nothing rendered, nothing typed, no timer. *)
Definition fresh_page : page :=
  mkPage [] "" [] "" [] None [] 1 0 [] [] [].

(** ** Statements with effects: state that survives a throw *)

Module Script.

Definition M (A : Type) : Type := page -> (exn + A) * page.

Definition ret {A} (a : A) : M A := fun s => (inr a, s).

Definition bind {A B} (c : M A) (k : A -> M B) : M B :=
  fun s =>
    match c s with
    | (inr a, s') => k a s'
    | (inl e, s') => (inl e, s')
    end.

Definition throw {A} (e : exn) : M A := fun s => (inl e, s).

(** [try { c } catch (err) { h err }] *)
Definition try_catch {A} (c : M A) (h : exn -> M A) : M A :=
  fun s =>
    match c s with
    | (inr a, s') => (inr a, s')
    | (inl e, s') => h e s'
    end.

Definition read {A} (f : page -> A) : M A := fun s => (inr (f s), s).
Definition update (f : page -> page) : M unit := fun s => (inr tt, f s).

(** The page a statement leaves, thrown or not. *)
Definition exec {A} (c : M A) (s : page) : page := snd (c s).
(** How it ended. *)
Definition outcome {A} (c : M A) (s : page) : exn + A := fst (c s).

(** [l.forEach(f)]: stops at the first throw. *)
Fixpoint forEach {A} (f : A -> M unit) (l : list A) : M unit :=
  match l with
  | [] => ret tt
  | x :: r => bind (f x) (fun _ => forEach f r)
  end.

Definition alert (msg : string) : M unit :=
  update (fun s => set_alerts (alerts s ++ [msg]) s).

Definition console_error (msg : string) : M unit :=
  update (fun s => set_console (console s ++ [msg]) s).

(** [await fetch(...)]: the request leaves, the network answers or the
    promise rejects. *)
Definition fetch (net : network) (req : request) : M response :=
  bind (update (fun s => set_requests (requests s ++ [req]) s))
    (fun _ => match net req with
              | NetworkFailure => throw FetchError
              | Reply r => ret r
              end).

(** [await resp.json()] *)
Definition resp_json (r : response) : M json_body :=
  match json r with
  | NotJson => throw SyntaxError
  | j => ret j
  end.

(** [data.results] and [data.did_you_mean]: reading a property of
    [null] throws. *)
Definition get_results (d : json_body) : M (option (list item)) :=
  match d with
  | JsonObject r _ => ret r
  | _ => throw TypeError
  end.

Definition get_did_you_mean (d : json_body) : M jsval :=
  match d with
  | JsonObject _ v => ret v
  | _ => throw TypeError
  end.

(** [v.toLowerCase()], a method of strings only. *)
Definition call_toLowerCase (v : jsval) : M string :=
  match v with
  | JStr s => ret (toLowerCase s)
  | _ => throw TypeError
  end.

(** [clearTimeout(h)]: disarms the timer of that handle, if any. *)
Definition clearTimeout (h : option nat) : M unit :=
  match h with
  | None => ret tt
  | Some id =>
      update (fun s =>
        set_timers (filter (fun t => negb (fst t =? id)%nat) (timers s)) s)
  end.

(** [setTimeout(callback, delay)]: arms a timer, returns its handle.
    The only callback ever armed is [fetchSuggestion]. *)
Definition setTimeout (delay : nat) : M nat :=
  fun s =>
    let id := next_timer s in
    (inr id,
     set_next_timer (S id) (set_timers (timers s ++ [(id, clock s + delay)]) s)).

End Script.

Import Script.

Notation "x <- c ;; k" := (bind c (fun x => k))
  (at level 61, c at next level, right associativity) : js_scope.
Notation "c ;; k" := (bind c (fun _ => k))
  (at level 61, right associativity) : js_scope.

(** ** src/static/furniture.js *)

Module Furniture.

(** Lines 20-40.  [fetchSuggestion] *)
Definition suggestion_markup (d : string) : string :=
  "Did you mean: <a href=" ++ quoted "#" ++ " onclick="
  ++ quoted ("setSearchExample('" ++ d ++ "')") ++ ">" ++ d ++ "</a>?".

Definition fetchSuggestion (net : network) : M unit :=
  q <- read (fun s => trim (textInput s)) ;;
  if q =? "" then
    update (set_suggestionDiv (parse ""))
  else
    try_catch
      (resp <- fetch net (GET ("/suggest?q=" ++ encodeURIComponent q)) ;;
       data <- resp_json resp ;;
       d <- get_did_you_mean data ;;
       if truthy d then
         low <- call_toLowerCase d ;;
         if negb (low =? toLowerCase q) then
           update (set_suggestionDiv (parse (suggestion_markup (to_string d))))
         else
           update (set_suggestionDiv (parse ""))
       else
         update (set_suggestionDiv (parse "")))
      (fun err =>
         console_error ("Suggestion error: " ++ exn_to_string err) ;;
         update (set_suggestionDiv (parse ""))).

(** Lines 9-12.  The [input] listener of the text field. *)
Definition on_input : M unit :=
  h <- read debounceTimer ;;
  clearTimeout h ;;
  id <- setTimeout 300 ;;
  update (set_debounceTimer (Some id)).

(** Lines 48-53. *)
Definition no_results_markup : string :=
  nl ++ "      <div class=" ++ quoted "no-results" ++ ">"
  ++ nl ++ "        <i class=" ++ quoted "fas fa-search" ++ "></i>"
  ++ nl ++ "        <h3>No results found</h3>"
  ++ nl ++ "        <p>Try different keywords or another image.</p>"
  ++ nl ++ "      </div>".

(** Lines 67-73, for a string [image_path]. *)
Definition resolve_src (p : string) : string :=
  if startsWith p "/static" then p
  else if startsWith p "static" then "/" ++ p
  else "/static/uploads/" ++ pop (split "/" p).

(** [item.image_path.startsWith(...)] throws on anything but a string. *)
Definition image_src (it : item) : M string :=
  match image_path it with
  | JStr p => ret (resolve_src p)
  | _ => throw TypeError
  end.

(** Line 85. *)
Definition display_price (it : item) : string :=
  to_string (final_price it ?? price it ?? JStr "").

Definition tag_markup (c : string) : string :=
  "<span class=" ++ quoted "tag" ++ ">" ++ c ++ "</span>".

Definition colors_or_empty (it : item) : list string :=
  match colors it with
  | Some l => l
  | None => []
  end.

(** Lines 82-89. *)
Definition info_markup (it : item) : string :=
  nl ++ "      <h3 class=" ++ quoted "result-title" ++ ">"
  ++ to_string (item_name it ||' JStr "") ++ "</h3>"
  ++ nl ++ "      <p class=" ++ quoted "result-description" ++ ">"
  ++ to_string (description it ||' JStr "") ++ "</p>"
  ++ nl ++ "      <div class=" ++ quoted "result-price" ++ ">"
  ++ display_price it ++ "</div>"
  ++ nl ++ "      <div class=" ++ quoted "result-tags" ++ ">"
  ++ nl ++ "        " ++ join (map tag_markup (colors_or_empty it))
  ++ nl ++ "      </div>"
  ++ nl ++ "    ".

(** Lines 58-91: the block built for one record, once its image URL
    is known. *)
Definition result_block (src : string) (it : item) : node :=
  let alt := to_string (item_name it ||' JStr "Furniture item") in
  let img := Elem "img" "" [("src", src); ("alt", alt)] [] in
  let imgDiv := Elem "div" "result-image" [] [img] in
  let info := Elem "div" "result-content" [] (parse (info_markup it)) in
  Elem "div" "result" [] [imgDiv; info].

(** Lines 57-93, the body of the [forEach]. *)
Definition render_item (it : item) : M unit :=
  src <- image_src it ;;
  update (fun s => set_resultsDiv (resultsDiv s ++ [result_block src it]) s).

Definition count_label (n : nat) : string :=
  nat_to_string n ++ " " ++ (if (n =? 1)%nat then "item" else "items").

(** Lines 43-94.  [displayResults] *)
Definition displayResults (items : list item) : M unit :=
  update (set_resultsDiv (parse "")) ;;
  update (set_resultsCount (count_label (length items))) ;;
  if (length items =? 0)%nat then
    update (set_resultsDiv (parse no_results_markup))
  else
    forEach render_item items.

Definition results_or_empty (r : option (list item)) : list item :=
  match r with
  | Some l => l
  | None => []
  end.

(** Lines 97-119.  [searchText] *)
Definition searchText (net : network) : M unit :=
  q <- read (fun s => trim (textInput s)) ;;
  if q =? "" then
    alert "Enter a text query"
  else
    update (set_suggestionDiv (parse "")) ;;
    try_catch
      (resp <- fetch net
                 (GET ("/search/text?q=" ++ encodeURIComponent q ++ "&k=10")) ;;
       if negb (ok resp) then
         alert ("Error " ++ nat_to_string (status resp) ++ ": " ++ text resp)
       else
         data <- resp_json resp ;;
         r <- get_results data ;;
         displayResults (results_or_empty r))
      (fun err => alert ("Error fetching results: " ++ exn_to_string err)).

(** Lines 14-18.  [setSearchExample] *)
Definition setSearchExample (net : network) (example : string) : M unit :=
  update (set_textInput example) ;;
  update (set_suggestionDiv (parse "")) ;;
  searchText net.

(** Lines 122-151.  [searchImage] *)
Definition searchImage (net : network) : M unit :=
  files <- read imageQuery ;;
  match files with
  | [] => alert "Select an image first"
  | file :: _ =>
      update (set_suggestionDiv (parse "")) ;;
      try_catch
        (resp <- fetch net
                   (mkRequest "POST" "/search/image?k=10" [("image", file)]) ;;
         if negb (ok resp) then
           alert ("Error " ++ nat_to_string (status resp) ++ ": " ++ text resp)
         else
           data <- resp_json resp ;;
           r <- get_results data ;;
           displayResults (results_or_empty r))
        (fun err =>
           alert ("Error fetching image results: " ++ exn_to_string err))
  end.

End Furniture.

(** ** src/unnamed/part_000 *)

Module Part000.

(** Lines 14-18. *)
Definition no_results_markup : string :=
  "<div class=" ++ quoted "no-results" ++ ">"
  ++ nl ++ "      <i class=" ++ quoted "fas fa-search" ++ "></i>"
  ++ nl ++ "      <h3>No results found</h3>"
  ++ nl ++ "      <p>Try different keywords or another image.</p>"
  ++ nl ++ "    </div>".

(** Line 31, for a string [image_path]. *)
Definition resolve_src (p : string) : string :=
  if startsWith p "/static" then p
  else "/static/" ++ pop (split "/" p).

Definition image_src (it : item) : M string :=
  match image_path it with
  | JStr p => ret (resolve_src p)
  | _ => throw TypeError
  end.

Definition tag_markup (c : string) : string :=
  "<span class=" ++ quoted "tag" ++ ">" ++ c ++ "</span>".

(** Lines 38-45. *)
Definition info_markup (it : item) : string :=
  nl ++ "      <h3 class=" ++ quoted "result-title" ++ ">"
  ++ to_string (item_name it) ++ "</h3>"
  ++ nl ++ "      <p class=" ++ quoted "result-description" ++ ">"
  ++ to_string (description it ||' JStr "") ++ "</p>"
  ++ nl ++ "      <div class=" ++ quoted "result-price" ++ ">"
  ++ to_string (price it ||' JStr "") ++ "</div>"
  ++ nl ++ "      <div class=" ++ quoted "result-tags" ++ ">"
  ++ nl ++ "        "
  ++ join (map tag_markup (Furniture.colors_or_empty it))
  ++ nl ++ "      </div>"
  ++ nl ++ "    ".

(** Lines 22-49, the body of the [forEach]. *)
Definition render_item (it : item) : M unit :=
  src <- image_src it ;;
  let img := Elem "img" "" [("src", src); ("alt", to_string (item_name it))] [] in
  let imgDiv := Elem "div" "result-image" [] [img] in
  let info := Elem "div" "result-content" [] (parse (info_markup it)) in
  let div := Elem "div" "result" [] [imgDiv; info] in
  update (fun s => set_resultsDiv (resultsDiv s ++ [div]) s).

(** Lines 9-50.  [displayResults]; the callers pass [data.results] as it
    is, so [items] may be [undefined]: reading its [length] throws. *)
Definition displayResults (items : option (list item)) : M unit :=
  update (set_resultsDiv (parse "")) ;;
  match items with
  | None => throw TypeError
  | Some items =>
      update (set_resultsCount (Furniture.count_label (length items))) ;;
      if (length items =? 0)%nat then
        update (set_resultsDiv (parse no_results_markup))
      else
        forEach render_item items
  end.

(** Lines 53-69.  [searchText] *)
Definition searchText (net : network) : M unit :=
  q <- read (fun s => trim (textInput s)) ;;
  if q =? "" then
    alert "Enter a text query"
  else
    try_catch
      (resp <- fetch net
                 (GET ("/search/text?q=" ++ encodeURIComponent q ++ "&k=10")) ;;
       if negb (ok resp) then
         alert ("Error: " ++ nat_to_string (status resp) ++ " - " ++ text resp)
       else
         data <- resp_json resp ;;
         r <- get_results data ;;
         displayResults r)
      (fun err => alert ("Error fetching results: " ++ exn_to_string err)).

(** Lines 4-7.  [setSearchExample] *)
Definition setSearchExample (net : network) (example : string) : M unit :=
  update (set_textInput example) ;;
  searchText net.

(** Lines 72-86.  [searchImage]: the reply is decoded whatever its
    status. *)
Definition searchImage (net : network) : M unit :=
  files <- read imageQuery ;;
  match files with
  | [] => alert "Select an image first"
  | file :: _ =>
      try_catch
        (resp <- fetch net
                   (mkRequest "POST" "/search/image?k=10" [("image", file)]) ;;
         data <- resp_json resp ;;
         r <- get_results data ;;
         displayResults r)
        (fun err =>
           alert ("Error fetching image results: " ++ exn_to_string err))
  end.

End Part000.

(** ** src/unnamed/part_001 *)

Module Part001.

(** Lines 47-51.  [escapeHtml]: [div.textContent = text] stores
    [null] and [undefined] as the empty text, any other value as its
    string; [div.innerHTML] serialises that text. *)
Definition escapeHtml (v : jsval) : string :=
  match v with
  | JUndefined | JNull => ""
  | _ => serialize_text (to_string v)
  end.

(** Lines 32-37. *)
Definition suggestion_markup (d : jsval) : string :=
  nl ++ "        Did you mean: "
  ++ nl ++ "        <a href=" ++ quoted "#" ++ " onclick="
  ++ quoted ("setSearchExample('" ++ escapeHtml d ++ "')") ++ ">"
  ++ nl ++ "          " ++ escapeHtml d
  ++ nl ++ "        </a>?"
  ++ nl ++ "      ".

(** Lines 20-45.  [fetchSuggestion] *)
Definition fetchSuggestion (net : network) : M unit :=
  q <- read (fun s => trim (textInput s)) ;;
  if q =? "" then
    update (set_suggestionDiv (parse ""))
  else
    try_catch
      (resp <- fetch net (GET ("/suggest?q=" ++ encodeURIComponent q)) ;;
       data <- resp_json resp ;;
       d <- get_did_you_mean data ;;
       if truthy d then
         low <- call_toLowerCase d ;;
         if negb (low =? toLowerCase q) then
           update (set_suggestionDiv (parse (suggestion_markup d)))
         else
           update (set_suggestionDiv (parse ""))
       else
         update (set_suggestionDiv (parse "")))
      (fun err =>
         console_error ("Suggestion error: " ++ exn_to_string err) ;;
         update (set_suggestionDiv (parse ""))).

(** Lines 59-64: the markup of furniture.js. *)
Definition no_results_markup : string := Furniture.no_results_markup.

(** Line 88. *)
Definition display_price (it : item) : string :=
  to_string (final_price it ?? special_price it ?? price it ?? JStr "N/A").

Definition tag_markup (color : string) : string :=
  "<span class=" ++ quoted "tag" ++ ">" ++ escapeHtml (JStr color)
  ++ "</span>".

(** Lines 90-99. *)
Definition info_markup (it : item) : string :=
  nl ++ "      <h3 class=" ++ quoted "result-title" ++ ">"
  ++ escapeHtml (item_name it ||' JStr "") ++ "</h3>"
  ++ nl ++ "      <p class=" ++ quoted "result-description" ++ ">"
  ++ escapeHtml (description it ||' JStr "") ++ "</p>"
  ++ nl ++ "      <div class=" ++ quoted "result-price" ++ ">"
  ++ display_price it ++ "</div>"
  ++ nl ++ "      <div class=" ++ quoted "result-tags" ++ ">"
  ++ nl ++ "        "
  ++ join (map tag_markup (Furniture.colors_or_empty it))
  ++ nl ++ "      </div>"
  ++ nl ++ "    ".

(** Lines 68-103, the body of the [forEach]: nothing here throws. *)
Definition render_item (it : item) : M unit :=
  let src := "/static/" ++ to_string (image_path it) in
  let alt := to_string (item_name it ||' JStr "Furniture item") in
  let img :=
    Elem "img" "" [("src", src); ("alt", alt); ("loading", "lazy")] [] in
  let imgDiv := Elem "div" "result-image" [] [img] in
  let info := Elem "div" "result-content" [] (parse (info_markup it)) in
  let div := Elem "div" "result" [] [imgDiv; info] in
  update (fun s => set_resultsDiv (resultsDiv s ++ [div]) s).

(** Lines 54-104.  [displayResults] *)
Definition displayResults (items : list item) : M unit :=
  update (set_resultsDiv (parse "")) ;;
  update (set_resultsCount (Furniture.count_label (length items))) ;;
  if (length items =? 0)%nat then
    update (set_resultsDiv (parse no_results_markup))
  else
    forEach render_item items.

(** Lines 107-129.  [searchText] *)
Definition searchText (net : network) : M unit :=
  q <- read (fun s => trim (textInput s)) ;;
  if q =? "" then
    alert "Please enter a text query"
  else
    update (set_suggestionDiv (parse "")) ;;
    try_catch
      (resp <- fetch net
                 (GET ("/search/text?q=" ++ encodeURIComponent q ++ "&k=10")) ;;
       if negb (ok resp) then
         alert ("Error " ++ nat_to_string (status resp) ++ ": " ++ text resp)
       else
         data <- resp_json resp ;;
         r <- get_results data ;;
         displayResults (Furniture.results_or_empty r))
      (fun err =>
         console_error ("Text search error: " ++ exn_to_string err) ;;
         alert "Failed to search. Check console for details.").

(** Lines 132-162.  [searchImage] *)
Definition searchImage (net : network) : M unit :=
  files <- read imageQuery ;;
  match files with
  | [] => alert "Please select an image first"
  | file :: _ =>
      update (set_suggestionDiv (parse "")) ;;
      try_catch
        (resp <- fetch net
                   (mkRequest "POST" "/search/image?k=10" [("image", file)]) ;;
         if negb (ok resp) then
           alert ("Error " ++ nat_to_string (status resp) ++ ": " ++ text resp)
         else
           data <- resp_json resp ;;
           r <- get_results data ;;
           displayResults (Furniture.results_or_empty r))
        (fun err =>
           console_error ("Image search error: " ++ exn_to_string err) ;;
           alert "Failed to search by image. Check console for details.")
  end.

(** Lines 14-18.  [setSearchExample] *)
Definition setSearchExample (net : network) (example : string) : M unit :=
  update (set_textInput example) ;;
  update (set_suggestionDiv (parse "")) ;;
  searchText net.

End Part001.

(** ** The event loop around the suggestion controller of furniture.js *)

Inductive event : Type :=
| Input (value : string)     (* the user edits the text field *)
| Elapse (ms : nat).         (* time passes, due timers fire *)

Definition is_due (now : nat) (t : nat * nat) : bool := (snd t <=? now)%nat.

(** The timers due at the new time are disarmed and their callback,
    [fetchSuggestion], runs once for each, oldest first. *)
Definition fire_due (net : network) : M unit :=
  now <- read clock ;;
  armed <- read timers ;;
  update (set_timers (filter (fun t => negb (is_due now t)) armed)) ;;
  forEach (fun _ => Furniture.fetchSuggestion net) (filter (is_due now) armed).

Definition step (net : network) (e : event) : M unit :=
  match e with
  | Input v => update (set_textInput v) ;; Furniture.on_input
  | Elapse ms => update (fun s => set_clock (clock s + ms) s) ;; fire_due net
  end.

Definition run (net : network) (es : list event) : M unit :=
  forEach (step net) es.

(** A burst of keystrokes: each is followed by a pause shorter than the
    debounce delay. *)
Fixpoint burst (keys : list (string * nat)) : list event :=
  match keys with
  | [] => []
  | (v, pause) :: r => Input v :: Elapse pause :: burst r
  end.

Definition short_pauses (keys : list (string * nat)) : Prop :=
  Forall (fun k => snd k < 300) keys.

(** At most one timer is armed, and it is the one the handle names. *)
Definition one_timer (s : page) : Prop :=
  timers s = [] \/
  exists id due, timers s = [(id, due)] /\ debounceTimer s = Some id.

(** ** The query string of a request URL *)

Definition query_of (u : string) : string :=
  match split "?" u with
  | _ :: q :: _ => q
  | _ => ""
  end.

Fixpoint key_value (p : string) : string * string :=
  match p with
  | "" => ("", "")
  | String c r =>
      if Ascii.eqb c "=" then ("", r)
      else let (k, v) := key_value r in (String c k, v)
  end.

(** The parameters of a URL with at most one [?], in order. *)
Definition query_params (u : string) : list (string * string) :=
  map key_value (split "&" (query_of u)).

Fixpoint lookup (k : string) (l : list (string * string)) : option string :=
  match l with
  | [] => None
  | (k', v) :: r => if k' =? k then Some v else lookup k r
  end.

(** The requests a statement sends: those it adds to the log. *)
Definition sent {A} (c : M A) (s : page) : list request :=
  skipn (length (requests s)) (requests (exec c s)).

(** ** Notions the statements use *)

(** A record whose [image_path] is a string, empty or not. *)
Definition has_path (it : item) : bool :=
  match image_path it with
  | JStr _ => true
  | _ => false
  end.

(** The records before the first one without a string [image_path]. *)
Fixpoint renderable (items : list item) : list item :=
  match items with
  | [] => []
  | it :: r => if has_path it then it :: renderable r else []
  end.

(** The block furniture.js builds for a record with a string path. *)
Definition block_of (it : item) : node :=
  match image_path it with
  | JStr p => Furniture.result_block (Furniture.resolve_src p) it
  | _ => Furniture.result_block "" it
  end.

(** The price chain in the words of the specification: the first value
    that is present among the candidates, in order, else the sentinel.  A
    value is present when it is neither absent nor [null]. *)
Fixpoint first_present (candidates : list jsval) (sentinel : string) : string :=
  match candidates with
  | [] => sentinel
  | v :: r => if nullish v then first_present r sentinel else to_string v
  end.

Definition spec_price (sentinel : string) (it : item) : string :=
  first_present [final_price it; special_price it; price it] sentinel.

(** The suggestion a reply offers for the query [q], in the words of the
    specification: non-empty and different from [q] whatever the case of
    the letters. *)
Definition offered (reply : fetch_result) (q : string) : option string :=
  match reply with
  | Reply r =>
      match json r with
      | JsonObject _ (JStr d) =>
          if negb (d =? "") && negb (toLowerCase d =? toLowerCase q)
          then Some d else None
      | _ => None
      end
  | NetworkFailure => None
  end.

Definition suggest_request (q : string) : request :=
  GET ("/suggest?q=" ++ encodeURIComponent q).

(** The requests of furniture.js, lines 107 and 135-138. *)
Definition text_search_request (q : string) : request :=
  GET ("/search/text?q=" ++ encodeURIComponent q ++ "&k=10").

Definition image_search_request (file : string) : request :=
  mkRequest "POST" "/search/image?k=10" [("image", file)].

(** The page once the [input] listener has run for the value [v]: one
    timer armed, due 300 ms later, and named by the handle. *)
Definition armed (v : string) (s : page) : page :=
  set_debounceTimer (Some (next_timer s))
    (set_next_timer (S (next_timer s))
       (set_timers [(next_timer s, clock s + 300)] (set_textInput v s))).

(** ** Sample records and replies *)

Definition sofa : item :=
  mkItem (JStr "Sofa A") JUndefined (JStr "static/uploads/a.jpg")
         JUndefined JUndefined (JNum 199) None.

Definition chair : item :=
  mkItem (JStr "Chair") (JStr "Oak") (JStr "/srv/data/b.jpg")
         (JNum 5) (JNum 7) (JNum 9) (Some ["red"; "blue"]).

(** [image_path] absent. *)
Definition no_path : item :=
  mkItem (JStr "Lamp") JUndefined JUndefined JUndefined JUndefined
         (JNum 20) None.

(** [image_path] empty. *)
Definition empty_path : item :=
  mkItem (JStr "Lamp") JUndefined (JStr "") JUndefined JUndefined
         (JNum 20) None.

(** A title that is markup. *)
Definition markup_title : item :=
  mkItem (JStr "<img onerror=x>") JUndefined (JStr "a.jpg")
         JUndefined JUndefined JUndefined None.

(** Only [special_price] and [price] are given. *)
Definition on_sale : item :=
  mkItem (JStr "Desk") JUndefined (JStr "d.jpg")
         JUndefined (JNum 7) (JNum 9) None.

Definition always (r : response) : network := fun _ => Reply r.

(** A server error whose JSON body has no [results]. *)
Definition server_error : response :=
  mkResponse 500 "Internal Server Error" (JsonObject None JUndefined).

(** A server error whose JSON body still carries a suggestion. *)
Definition error_with_suggestion : response :=
  mkResponse 500 "oops" (JsonObject None (JStr "sofa")).

Definition typed (v : string) : page := set_textInput v fresh_page.

(** A page showing earlier results, with one file picked. *)
Definition showing_old : page :=
  mkPage [Furniture.result_block "/static/uploads/a.jpg" sofa] "1 item" []
         "" ["photo.png"] None [] 1 0 [] [] [].

(** ** Further notions *)

(** The block part_001 builds for a record, lines 69-102. *)
Definition part001_block (it : item) : node :=
  Elem "div" "result" []
    [Elem "div" "result-image" []
       [Elem "img" ""
          [("src", "/static/" ++ to_string (image_path it));
           ("alt", to_string (item_name it ||' JStr "Furniture item"));
           ("loading", "lazy")] []];
     Elem "div" "result-content" [] (parse (Part001.info_markup it))].

(** The block part_000 builds for a record with a string path. *)
Definition part000_block (it : item) : node :=
  match image_path it with
  | JStr p =>
      Elem "div" "result" []
        [Elem "div" "result-image" []
           [Elem "img" ""
              [("src", Part000.resolve_src p);
               ("alt", to_string (item_name it))] []];
         Elem "div" "result-content" [] (parse (Part000.info_markup it))]
  | _ => Parsed ""
  end.

(** The input events of a sequence. *)
Fixpoint inputs (es : list event) : nat :=
  match es with
  | [] => 0
  | Input _ :: r => S (inputs r)
  | Elapse _ :: r => inputs r
  end.

Fixpoint all_chars (f : ascii -> bool) (s : string) : bool :=
  match s with
  | "" => true
  | String c r => f c && all_chars f r
  end.

(** A character the serialisation of text leaves as it is. *)
Definition plain_char (c : ascii) : bool :=
  negb (Ascii.eqb c "&" || Ascii.eqb c "<" || Ascii.eqb c ">"
        || Ascii.eqb c nbsp).

(** A character that may stand in a URL component as it is, or belongs
    to a percent escape. *)
Definition url_safe_char (c : ascii) : bool :=
  uri_unreserved c || Ascii.eqb c "%".

(** A keystroke, a text search right after it, then the debounce delay
    without further input. *)
Definition type_search_wait (net : network) (v : string) : M unit :=
  step net (Input v) ;; Furniture.searchText net ;; step net (Elapse 300).

(** The reply makes a search render: a success whose body is a JSON
    object. *)
Definition renders (reply : fetch_result) : bool :=
  match reply with
  | Reply r =>
      ok r && match json r with
              | JsonObject _ _ => true
              | _ => false
              end
  | NetworkFailure => false
  end.

(** The page furniture.js leaves once a search request has gone out from
    the page [s0] and met the reply [reply]; [label] opens the alert of
    the [catch] block. *)
Definition settled (label : string) (reply : fetch_result) (s0 : page) : page :=
  let failed (e : exn) (s1 : page) :=
    set_alerts (alerts s1 ++ [label ++ exn_to_string e]) s1 in
  match reply with
  | NetworkFailure => failed FetchError s0
  | Reply r =>
      if ok r then
        match json r with
        | NotJson => failed SyntaxError s0
        | JsonNull => failed TypeError s0
        | JsonObject rs _ =>
            let items := Furniture.results_or_empty rs in
            let s1 :=
              set_resultsDiv
                (match items with
                 | [] => [Parsed Furniture.no_results_markup]
                 | _ => map block_of (renderable items)
                 end)
                (set_resultsCount (Furniture.count_label (length items)) s0) in
            if forallb has_path items then s1 else failed TypeError s1
        end
      else
        set_alerts
          (alerts s0
           ++ ["Error " ++ nat_to_string (status r) ++ ": " ++ text r]) s0
  end.

(** The page a search request leaves from: the suggestion view emptied,
    the request in the log. *)
Definition dispatched (req : request) (s : page) : page :=
  set_requests (requests s ++ [req]) (set_suggestionDiv [] s).

(** The page part_001 leaves once a search request has gone out from
    the page [s0] and met the reply [reply]: a thrown error is logged to
    the console under [log_label] and the alert is the fixed [notice]. *)
Definition part001_settled (log_label notice : string) (reply : fetch_result)
    (s0 : page) : page :=
  let failed (e : exn) :=
    set_alerts (alerts s0 ++ [notice])
      (set_console (console s0 ++ [log_label ++ exn_to_string e]) s0) in
  match reply with
  | NetworkFailure => failed FetchError
  | Reply r =>
      if ok r then
        match json r with
        | NotJson => failed SyntaxError
        | JsonNull => failed TypeError
        | JsonObject rs _ =>
            let items := Furniture.results_or_empty rs in
            set_resultsDiv
              (match items with
               | [] => [Parsed Part001.no_results_markup]
               | _ => map part001_block items
               end)
              (set_resultsCount (Furniture.count_label (length items)) s0)
        end
      else
        set_alerts
          (alerts s0
           ++ ["Error " ++ nat_to_string (status r) ++ ": " ++ text r]) s0
  end.

(** A reply with an HTTP status that is not a success. *)
Definition http_error (reply : fetch_result) : bool :=
  match reply with
  | Reply r => negb (ok r)
  | NetworkFailure => false
  end.

(* ================================================================== *)
(** * Part II: properties *)
(* ================================================================== *)

(** ** Strings *)

Ltac each_char c := destruct c as [[] [] [] [] [] [] [] []].

Lemma contains_char_app c a b :
  contains_char c (a ++ b) = contains_char c a || contains_char c b.
Proof.
  induction a as [|d a IH]; simpl; [reflexivity|].
  rewrite IH. apply orb_assoc.
Qed.

Lemma flat_map_chars_avoids c f :
  (forall d, contains_char c (f d) = false) ->
  forall s, contains_char c (flat_map_chars f s) = false.
Proof.
  intros Hf s. induction s as [|d s IH]; simpl; [reflexivity|].
  rewrite contains_char_app, Hf, IH. reflexivity.
Qed.

Lemma encode_char_no_amp d : contains_char "&" (encode_char d) = false.
Proof. each_char d; reflexivity. Qed.

Lemma encode_char_no_question d : contains_char "?" (encode_char d) = false.
Proof. each_char d; reflexivity. Qed.

Lemma encodeURIComponent_no_amp s :
  contains_char "&" (encodeURIComponent s) = false.
Proof. apply flat_map_chars_avoids, encode_char_no_amp. Qed.

Lemma encodeURIComponent_no_question s :
  contains_char "?" (encodeURIComponent s) = false.
Proof. apply flat_map_chars_avoids, encode_char_no_question. Qed.

Lemma split_not_nil sep s : split sep s <> [].
Proof.
  destruct s as [|c r]; simpl; [discriminate|].
  destruct (Ascii.eqb c sep); [discriminate|].
  destruct (split sep r); discriminate.
Qed.

Lemma split_whole sep a : contains_char sep a = false -> split sep a = [a].
Proof.
  induction a as [|c a IH]; simpl; [reflexivity|].
  intros H. apply orb_false_iff in H as [Hc Ha].
  rewrite Hc, (IH Ha). reflexivity.
Qed.

Lemma split_app_sep sep a b :
  contains_char sep a = false ->
  split sep (a ++ String sep b) = a :: split sep b.
Proof.
  induction a as [|c a IH]; simpl.
  - intros _. rewrite Ascii.eqb_refl. reflexivity.
  - intros H. apply orb_false_iff in H as [Hc Ha].
    rewrite Hc, (IH Ha). reflexivity.
Qed.

Lemma endsWith_refl s : endsWith s s = true.
Proof. destruct s; cbn [endsWith]; rewrite String.eqb_refl; reflexivity. Qed.

Lemma split_two sep s :
  contains_char sep s = true -> exists h h' t, split sep s = h :: h' :: t.
Proof.
  induction s as [|c r IH]; simpl; [discriminate|].
  destruct (Ascii.eqb c sep); simpl.
  - intros _. destruct (split sep r) as [|h' t] eqn:E.
    + exfalso. exact (split_not_nil sep r E).
    + now exists "", h', t.
  - intros H. destruct (IH H) as (h & h' & t & ->).
    now exists (String c h), h', t.
Qed.

Lemma pop_split_cons sep c r :
  contains_char sep (String c r) = true ->
  pop (split sep (String c r)) = pop (split sep r).
Proof.
  unfold pop. simpl. destruct (Ascii.eqb c sep); simpl.
  - intros _. destruct (split sep r) as [|h t] eqn:E; [|reflexivity].
    exfalso. exact (split_not_nil sep r E).
  - intros H. destruct (split_two _ _ H) as (h & h' & t & ->). reflexivity.
Qed.

Lemma pop_split_whole sep s :
  contains_char sep s = false -> pop (split sep s) = s.
Proof. intros H. rewrite (split_whole _ _ H). reflexivity. Qed.

(** The last segment holds no separator ... *)
Lemma pop_split_no_sep sep s :
  contains_char sep (pop (split sep s)) = false.
Proof.
  induction s as [|c r IH]; [reflexivity|].
  destruct (contains_char sep (String c r)) eqn:E.
  - rewrite (pop_split_cons _ _ _ E). exact IH.
  - rewrite (pop_split_whole _ _ E). exact E.
Qed.

(** ... and is what follows the last separator: the directory part
    before it is empty or ends with the separator. *)
Lemma pop_split_suffix sep s :
  exists dir, s = dir ++ pop (split sep s) /\
              (dir = "" \/ endsWith dir (String sep "") = true).
Proof.
  induction s as [|c r IH].
  - exists "". split; [reflexivity | now left].
  - destruct (contains_char sep (String c r)) eqn:E.
    + destruct IH as (dir & Hr & Hd).
      exists (String c dir). rewrite (pop_split_cons _ _ _ E). split.
      * simpl. rewrite <- Hr. reflexivity.
      * right. destruct Hd as [-> | Hd].
        -- simpl in Hr. rewrite Hr in E.
           simpl in E. rewrite pop_split_no_sep, orb_false_r in E.
           apply Ascii.eqb_eq in E. subst c. apply endsWith_refl.
        -- simpl. rewrite Hd. apply orb_true_r.
    + exists "". rewrite (pop_split_whole _ _ E).
      split; [reflexivity | now left].
Qed.

Lemma endsWith_app a b : endsWith (a ++ b) b = true.
Proof.
  induction a as [|c a IH]; simpl.
  - apply endsWith_refl.
  - rewrite IH. apply orb_true_r.
Qed.

Lemma append_assoc (a b c : string) : (a ++ b) ++ c = a ++ (b ++ c).
Proof. induction a as [|x a IH]; simpl; [|rewrite IH]; reflexivity. Qed.

(** ** Escaping, as part_001 does it *)

Lemma escape_char_no_lt d : contains_char "<" (escape_char d) = false.
Proof. each_char d; reflexivity. Qed.

Lemma serialize_text_no_lt s : contains_char "<" (serialize_text s) = false.
Proof. apply flat_map_chars_avoids, escape_char_no_lt. Qed.

Lemma start_tags_no_lt s : contains_char "<" s = false -> start_tags s = [].
Proof.
  induction s as [|c r IH]; simpl; [reflexivity|].
  intros H. apply orb_false_iff in H as [Hc Hr].
  rewrite Hc. exact (IH Hr).
Qed.

Lemma decode_serialize s : decode_text (serialize_text s) = s.
Proof.
  unfold serialize_text.
  induction s as [|c r IH]; [reflexivity|].
  each_char c; cbn; rewrite ?IH; reflexivity.
Qed.

(** ** Rendering in furniture.js *)

Lemma set_resultsDiv_id s : set_resultsDiv (resultsDiv s) s = s.
Proof. destruct s; reflexivity. Qed.

Lemma render_item_run it s :
  Furniture.render_item it s =
  if has_path it
  then (inr tt, set_resultsDiv (resultsDiv s ++ [block_of it]) s)
  else (inl TypeError, s).
Proof.
  unfold Furniture.render_item, Furniture.image_src, has_path, block_of, bind.
  destruct (image_path it); reflexivity.
Qed.

(** The loop appends the blocks of the renderable records and throws
    exactly when some record has no string [image_path]. *)
Lemma forEach_render_item items s :
  forEach Furniture.render_item items s =
  (if forallb has_path items then inr tt else inl TypeError,
   set_resultsDiv (resultsDiv s ++ map block_of (renderable items)) s).
Proof.
  revert s. induction items as [|it r IH]; intros s.
  - simpl. rewrite app_nil_r, set_resultsDiv_id. reflexivity.
  - cbn [forEach forallb renderable]. unfold bind.
    rewrite render_item_run. destruct (has_path it); cbn [andb map].
    + rewrite IH. cbn [resultsDiv set_resultsDiv].
      rewrite <- app_assoc. reflexivity.
    + rewrite app_nil_r, set_resultsDiv_id. reflexivity.
Qed.

Lemma displayResults_run items s :
  Furniture.displayResults items s =
  (if forallb has_path items then inr tt else inl TypeError,
   set_resultsDiv
     (match items with
      | [] => [Parsed Furniture.no_results_markup]
      | _ => map block_of (renderable items)
      end)
     (set_resultsCount (Furniture.count_label (length items)) s)).
Proof.
  unfold Furniture.displayResults.
  destruct items as [|it r]; [reflexivity|].
  unfold bind at 1 2. cbn [update length Nat.eqb].
  rewrite forEach_render_item. reflexivity.
Qed.

Lemma result_blocks_map_block_of l :
  result_blocks (map block_of l) = length l.
Proof.
  unfold result_blocks. induction l as [|it r IH]; [reflexivity|].
  simpl. unfold block_of at 1. destruct (image_path it); simpl; now rewrite IH.
Qed.

Lemma renderable_all items :
  forallb has_path items = true -> renderable items = items.
Proof.
  induction items as [|it r IH]; simpl; [reflexivity|].
  intros H. apply andb_true_iff in H as [H1 H2].
  rewrite H1, (IH H2). reflexivity.
Qed.

(** C6.  [displayResults] always sets the count label to the number of
    records followed by [item] for exactly one record and by [items]
    otherwise, even when the loop later throws.  For the empty list the
    label is [0 items], the results region holds the no-results
    placeholder alone and no result block; for a one-record list the
    label is [1 item]. *)
Theorem count_label_and_placeholder :
  (forall items s,
      resultsCount (exec (Furniture.displayResults items) s) =
      nat_to_string (length items) ++ " "
      ++ (if (length items =? 1)%nat then "item" else "items")) /\
  (forall s,
      resultsCount (exec (Furniture.displayResults []) s) = "0 items" /\
      resultsDiv (exec (Furniture.displayResults []) s) =
        [Parsed Furniture.no_results_markup] /\
      result_blocks (resultsDiv (exec (Furniture.displayResults []) s)) = 0) /\
  (forall r s,
      resultsCount (exec (Furniture.displayResults [r]) s) = "1 item").
Proof.
  split; [|split].
  - intros items s. unfold exec. rewrite displayResults_run. reflexivity.
  - intros s. repeat split.
  - intros r s. unfold exec. rewrite displayResults_run. reflexivity.
Qed.

(** C7.  [displayResults] repaints from nothing: what it leaves in the
    results region and in the count label does not depend on what was
    there before, and running it a second time on the same list leaves
    the page exactly as the first run left it (and ends the same way). *)
Theorem displayResults_idempotent :
  forall items s,
    (forall s0,
        resultsDiv (exec (Furniture.displayResults items) s) =
        resultsDiv (exec (Furniture.displayResults items) s0) /\
        resultsCount (exec (Furniture.displayResults items) s) =
        resultsCount (exec (Furniture.displayResults items) s0)) /\
    exec (Furniture.displayResults items)
         (exec (Furniture.displayResults items) s) =
    exec (Furniture.displayResults items) s /\
    outcome (Furniture.displayResults items)
            (exec (Furniture.displayResults items) s) =
    outcome (Furniture.displayResults items) s.
Proof.
  intros items s. unfold exec, outcome.
  repeat split; rewrite !displayResults_run; reflexivity.
Qed.

(** C3, as the specification states it, fails.  Three records, one of
    them without [image_path] and two well formed: placed first, the
    malformed record stops the loop with a [TypeError] and no block at all
    is rendered.  With an empty [image_path] instead, the record is
    rendered like the others and three blocks appear. *)
Lemma malformed_record_not_dropped :
  result_blocks
    (resultsDiv (exec (Furniture.displayResults [no_path; sofa; chair])
                      fresh_page)) <> 2 /\
  outcome (Furniture.displayResults [no_path; sofa; chair]) fresh_page =
    inl TypeError /\
  result_blocks
    (resultsDiv (exec (Furniture.displayResults [empty_path; sofa; chair])
                      fresh_page)) = 3.
Proof. repeat split. discriminate. Qed.

(** C3, amended.  [displayResults] validates nothing and drops nothing.
    It renders one block per record, in order, up to the first record
    whose [image_path] is not a string, where it throws: the blocks in
    the results region are those of the records before that one.  A list
    whose records all have a string [image_path], the empty string
    included, is rendered whole. *)
Theorem blocks_up_to_first_malformed :
  forall items s,
    result_blocks (resultsDiv (exec (Furniture.displayResults items) s)) =
      length (renderable items) /\
    (items <> [] ->
     resultsDiv (exec (Furniture.displayResults items) s) =
       map block_of (renderable items)) /\
    (forallb has_path items = true ->
     renderable items = items /\
     outcome (Furniture.displayResults items) s = inr tt) /\
    (forallb has_path items = false ->
     outcome (Furniture.displayResults items) s = inl TypeError).
Proof.
  intros items s. unfold exec, outcome. rewrite displayResults_run.
  cbn [fst snd resultsDiv set_resultsDiv]. repeat split.
  - destruct items; [reflexivity|]. apply result_blocks_map_block_of.
  - destruct items; [congruence|reflexivity].
  - now apply renderable_all.
  - now rewrite H.
  - intros H. now rewrite H.
Qed.

Lemma blocks_up_to_first_malformed_witness :
  [empty_path; sofa; chair] <> [] /\
  forallb has_path [empty_path; sofa; chair] = true /\
  result_blocks
    (resultsDiv (exec (Furniture.displayResults [empty_path; sofa; chair])
                      fresh_page)) = 3 /\
  outcome (Furniture.displayResults [empty_path; sofa; chair]) fresh_page =
    inr tt.
Proof.
  assert (Hne : [empty_path; sofa; chair] <> []) by discriminate.
  assert (Hall : forallb has_path [empty_path; sofa; chair] = true)
    by reflexivity.
  destruct (blocks_up_to_first_malformed [empty_path; sofa; chair] fresh_page)
    as (Hn & _ & Hok & _).
  destruct (Hok Hall) as (_ & Hout).
  split; [exact Hne|]. split; [exact Hall|]. split; [exact Hn | exact Hout].
Defined.

(** The image URL furniture.js gives a record with an empty path. *)
Example empty_path_url : Furniture.resolve_src "" = "/static/uploads/".
Proof. reflexivity. Qed.

(** C4.  For a record whose [image_path] is a non-empty string [p], the
    image URL is resolved without a throw, in three tiers tried in order:
    [p] itself when [p] starts with [/static]; [/] followed by [p] when
    [p] starts with [static]; otherwise [/static/uploads/f] where [f] is
    what follows the last [/] of [p] (so [p] is a directory part, empty or
    ending in [/], followed by [f], and [f] holds no [/]), a URL that
    ends with [/uploads/f]; [f] is [p] itself when [p] is a bare file
    name.  In the three tiers the URL starts with [/static]. *)
Theorem image_url_three_tiers :
  forall it p s,
    image_path it = JStr p -> p <> "" ->
    let src := Furniture.resolve_src p in
    let f := pop (split "/" p) in
    Furniture.image_src it s = (inr src, s) /\
    startsWith src "/static" = true /\
    (startsWith p "/static" = true -> src = p) /\
    (startsWith p "/static" = false -> startsWith p "static" = true ->
     src = "/" ++ p) /\
    (startsWith p "/static" = false -> startsWith p "static" = false ->
     src = "/static/uploads/" ++ f /\
     endsWith src ("/uploads/" ++ f) = true /\
     contains_char "/" f = false /\
     (exists dir, p = dir ++ f /\ (dir = "" \/ endsWith dir "/" = true)) /\
     (contains_char "/" p = false -> f = p)).
Proof.
  intros it p s Hp _ src f. subst src f.
  unfold Furniture.image_src, Furniture.resolve_src. rewrite Hp.
  split; [reflexivity|].
  destruct (startsWith p "/static") eqn:E1;
    [|destruct (startsWith p "static") eqn:E2].
  - repeat split; try discriminate; assumption.
  - repeat split; try discriminate.
    unfold startsWith in *. simpl. exact E2.
  - repeat split; try discriminate.
    + change ("/static/uploads/" ++ pop (split "/" p))
        with ("/static" ++ ("/uploads/" ++ pop (split "/" p))).
      apply endsWith_app.
    + apply pop_split_no_sep.
    + apply pop_split_suffix.
    + apply pop_split_whole.
Qed.

Lemma image_url_three_tiers_witness :
  image_path chair = JStr "/srv/data/b.jpg" /\
  "/srv/data/b.jpg" <> "" /\
  Furniture.image_src chair fresh_page =
    (inr "/static/uploads/b.jpg", fresh_page) /\
  endsWith (Furniture.resolve_src "/srv/data/b.jpg") "/uploads/b.jpg" = true.
Proof.
  assert (Hp : image_path chair = JStr "/srv/data/b.jpg") by reflexivity.
  assert (Hn : "/srv/data/b.jpg" <> "") by discriminate.
  destruct (image_url_three_tiers chair "/srv/data/b.jpg" fresh_page Hp Hn)
    as (Hrun & _ & _ & _ & H3).
  destruct (H3 eq_refl eq_refl) as (_ & Hend & _).
  split; [exact Hp|]. split; [exact Hn|]. split; [exact Hrun | exact Hend].
Defined.

(** ** Prices *)

(** part_001, line 88, is the chain of the specification with the
    sentinel [N/A]. *)
Lemma part001_price_is_first_present it :
  Part001.display_price it = spec_price "N/A" it.
Proof.
  unfold Part001.display_price, spec_price, first_present, coalesce.
  destruct (final_price it), (special_price it), (price it); reflexivity.
Qed.

(** The three examples of the specification hold in both revisions. *)
Example price_examples :
  Furniture.display_price chair = "5" /\ Part001.display_price chair = "5" /\
  Furniture.display_price sofa = "199" /\ Part001.display_price sofa = "199" /\
  Furniture.display_price markup_title = "" /\
  Part001.display_price markup_title = "N/A".
Proof. repeat split. Qed.

(** An empty string is a value for [??]: it is displayed, not skipped. *)
Example empty_price_is_present :
  Part001.display_price
    (mkItem JUndefined JUndefined (JStr "a.jpg") (JStr "") JUndefined (JNum 9)
            None) = "".
Proof. reflexivity. Qed.

(** C2.  furniture.js, line 85, leaves [special_price] out of the chain:
    for a record with [special_price] 7, [price] 9 and no [final_price]
    it displays [9], where the chain of the specification (and line 88 of
    part_001) gives [7]; with [special_price] alone it displays the
    sentinel. *)
Theorem furniture_skips_special_price :
  Furniture.display_price on_sale = "9" /\
  spec_price "" on_sale = "7" /\
  Part001.display_price on_sale = "7" /\
  Furniture.display_price
    (mkItem JUndefined JUndefined (JStr "d.jpg") JUndefined (JNum 7)
            JUndefined None) = "" /\
  resultsDiv (exec (Furniture.displayResults [on_sale]) fresh_page) =
    [Elem "div" "result" []
       [Elem "div" "result-image" []
          [Elem "img" "" [("src", "/static/uploads/d.jpg"); ("alt", "Desk")] []];
        Elem "div" "result-content" []
          [Parsed
             (nl ++ "      <h3 class=" ++ quoted "result-title" ++ ">Desk</h3>"
              ++ nl ++ "      <p class=" ++ quoted "result-description"
              ++ "></p>"
              ++ nl ++ "      <div class=" ++ quoted "result-price"
              ++ ">9</div>"
              ++ nl ++ "      <div class=" ++ quoted "result-tags" ++ ">"
              ++ nl ++ "        "
              ++ nl ++ "      </div>"
              ++ nl ++ "    ")]]].
Proof. repeat split. Qed.

(** ** Escaping *)

(** What [escapeHtml] of part_001 returns holds no [<], so it opens no
    tag, and it reads back as the text it was given. *)
Lemma escapeHtml_is_text v :
  contains_char "<" (Part001.escapeHtml v) = false /\
  start_tags (Part001.escapeHtml v) = [].
Proof.
  assert (H : contains_char "<" (Part001.escapeHtml v) = false).
  { destruct v; try reflexivity; apply serialize_text_no_lt. }
  split; [exact H | apply start_tags_no_lt, H].
Qed.

Lemma escapeHtml_round_trip s :
  decode_text (Part001.escapeHtml (JStr s)) = s.
Proof. apply decode_serialize. Qed.

(** It leaves quotes alone, also where part_001 puts its result between
    quotes (lines 34). *)
Example escapeHtml_keeps_quotes :
  Part001.escapeHtml (JStr ("x" ++ dq ++ "y'z")) = "x" ++ dq ++ "y'z".
Proof. reflexivity. Qed.

(** part_001 on the title that furniture.js lets through. *)
Example part001_escapes_title :
  start_tags (Part001.info_markup markup_title) = ["h3"; "p"; "div"; "div"] /\
  Part001.info_markup markup_title =
    nl ++ "      <h3 class=" ++ quoted "result-title"
    ++ ">&lt;img onerror=x&gt;</h3>"
    ++ nl ++ "      <p class=" ++ quoted "result-description" ++ "></p>"
    ++ nl ++ "      <div class=" ++ quoted "result-price" ++ ">N/A</div>"
    ++ nl ++ "      <div class=" ++ quoted "result-tags" ++ ">"
    ++ nl ++ "        "
    ++ nl ++ "      </div>"
    ++ nl ++ "    ".
Proof. split; reflexivity. Qed.

(** C1.  furniture.js has no escaping function: lines 82-89 put the title
    into the markup as it came.  For the title [<img onerror=x>] the
    markup assigned to [innerHTML] holds that text as it is, and the
    parser opens an [img] tag for it; the same holds for a description, a
    colour and the suggestion text (line 32). *)
Theorem furniture_title_not_escaped :
  Furniture.info_markup markup_title =
    nl ++ "      <h3 class=" ++ quoted "result-title"
    ++ "><img onerror=x></h3>"
    ++ nl ++ "      <p class=" ++ quoted "result-description" ++ "></p>"
    ++ nl ++ "      <div class=" ++ quoted "result-price" ++ "></div>"
    ++ nl ++ "      <div class=" ++ quoted "result-tags" ++ ">"
    ++ nl ++ "        "
    ++ nl ++ "      </div>"
    ++ nl ++ "    " /\
  start_tags (Furniture.info_markup markup_title) =
    ["h3"; "img"; "p"; "div"; "div"] /\
  resultsDiv (exec (Furniture.displayResults [markup_title]) fresh_page) =
    [Elem "div" "result" []
       [Elem "div" "result-image" []
          [Elem "img" ""
             [("src", "/static/uploads/a.jpg"); ("alt", "<img onerror=x>")] []];
        Elem "div" "result-content" []
          [Parsed (Furniture.info_markup markup_title)]]] /\
  start_tags (Furniture.tag_markup "<img onerror=x>") = ["span"; "img"] /\
  start_tags (Furniture.suggestion_markup "<img onerror=x>") =
    ["a"; "img"; "img"].
Proof. repeat split. Qed.

(** ** Searches *)

Ltac run_script :=
  unfold exec, outcome, try_catch, fetch, alert, console_error, resp_json,
    get_results, get_did_you_mean, call_toLowerCase, read, update, bind, ret,
    throw;
  cbn [fst snd].

(** furniture.js, [searchText], on a reply that is not a success: the
    status and the body are shown in an alert and the results region and
    its count are left as they were. *)
Lemma furniture_searchText_http_error net s r :
  trim (textInput s) <> "" ->
  net (text_search_request (trim (textInput s))) = Reply r ->
  ok r = false ->
  exec (Furniture.searchText net) s =
  set_alerts
    (alerts s ++ ["Error " ++ nat_to_string (status r) ++ ": " ++ text r])
    (set_requests (requests s ++ [text_search_request (trim (textInput s))])
       (set_suggestionDiv [] s)).
Proof.
  intros Hq Hnet Hok. unfold Furniture.searchText. run_script.
  apply String.eqb_neq in Hq. rewrite Hq. cbn [fst snd].
  fold (text_search_request (trim (textInput s))).
  cbn [textInput set_suggestionDiv set_requests].
  rewrite Hnet. cbn [fst snd]. rewrite Hok. reflexivity.
Qed.

(** The same for [searchImage]. *)
Lemma furniture_searchImage_http_error net s r file rest :
  imageQuery s = file :: rest ->
  net (image_search_request file) = Reply r ->
  ok r = false ->
  exec (Furniture.searchImage net) s =
  set_alerts
    (alerts s ++ ["Error " ++ nat_to_string (status r) ++ ": " ++ text r])
    (set_requests (requests s ++ [image_search_request file])
       (set_suggestionDiv [] s)).
Proof.
  intros Hf Hnet Hok. unfold Furniture.searchImage. run_script.
  rewrite Hf. cbn [fst snd].
  fold (image_search_request file).
  rewrite Hnet, Hok. reflexivity.
Qed.

(** C5.  [searchImage] of part_000 (lines 79-85) never looks at the
    status.  On a reply of status 500 whose JSON body has no [results] it
    empties the results region that showed earlier results, and the alert
    it raises names neither the status nor the body.  [searchText] of the
    same file and [searchImage] of furniture.js, on the same reply, show
    status and body and leave the results region alone. *)
Theorem part000_searchImage_ignores_status :
  ok server_error = false /\
  result_blocks (resultsDiv showing_old) = 1 /\
  resultsDiv (exec (Part000.searchImage (always server_error)) showing_old)
    = [] /\
  alerts (exec (Part000.searchImage (always server_error)) showing_old)
    = ["Error fetching image results: TypeError"] /\
  alerts (exec (Part000.searchText (always server_error))
               (set_textInput "sofa" showing_old))
    = ["Error: 500 - Internal Server Error"] /\
  resultsDiv (exec (Part000.searchText (always server_error))
                   (set_textInput "sofa" showing_old))
    = resultsDiv showing_old /\
  alerts (exec (Furniture.searchImage (always server_error)) showing_old)
    = ["Error 500: Internal Server Error"] /\
  resultsDiv (exec (Furniture.searchImage (always server_error)) showing_old)
    = resultsDiv showing_old.
Proof. repeat split. Qed.

(** ** Suggestions *)

Lemma suggestion_markup_shown d :
  parse (Furniture.suggestion_markup d) = [Parsed (Furniture.suggestion_markup d)].
Proof. reflexivity. Qed.

(** C8, as the specification states it, fails: on a reply of status 500
    whose body carries a suggestion, the suggestion is shown. *)
Lemma suggestion_shown_on_error_status :
  ok error_with_suggestion = false /\
  suggestionDiv
    (exec (Furniture.fetchSuggestion (always error_with_suggestion))
          (typed "sofe")) =
  [Parsed (Furniture.suggestion_markup "sofa")] /\
  suggestionDiv
    (exec (Furniture.fetchSuggestion (always error_with_suggestion))
          (typed "sofe")) <> [].
Proof. repeat split. discriminate. Qed.

(** part_001 decides in the same way: no revision reads the status of
    the reply to a suggestion request. *)
Example part001_suggestion_on_error_status :
  suggestionDiv
    (exec (Part001.fetchSuggestion (always error_with_suggestion))
          (typed "sofe")) =
  [Parsed (Part001.suggestion_markup (JStr "sofa"))].
Proof. reflexivity. Qed.

(** C8, amended.  [fetchSuggestion], when the trimmed query [q] is not
    empty, sends one request and never reads the status of the reply.  It
    shows the suggestion exactly when the body of the reply is a JSON
    object whose [did_you_mean] is a non-empty string that differs from
    [q] once both are in lower case.  In every other case (same
    suggestion, none, a body that is not JSON, no reply at all) the
    suggestion view is emptied.  No alert is raised in any case and the
    results are not touched. *)
Theorem suggestion_shown_iff_offered :
  forall net s,
    let q := trim (textInput s) in
    let s' := exec (Furniture.fetchSuggestion net) s in
    q <> "" ->
    match offered (net (suggest_request q)) q with
    | Some d => suggestionDiv s' = [Parsed (Furniture.suggestion_markup d)]
    | None => suggestionDiv s' = []
    end /\
    (suggestionDiv s' <> [] <->
     exists r rs d,
       net (suggest_request q) = Reply r /\
       json r = JsonObject rs (JStr d) /\
       d <> "" /\ toLowerCase d <> toLowerCase q) /\
    alerts s' = alerts s /\
    resultsDiv s' = resultsDiv s /\
    resultsCount s' = resultsCount s /\
    requests s' = (requests s ++ [suggest_request q])%list.
Proof.
  intros net s q s' Hq. subst s'.
  unfold Furniture.fetchSuggestion. run_script. fold q.
  pose proof Hq as Hq'. apply String.eqb_neq in Hq'. rewrite Hq'.
  cbn [fst snd]. fold (suggest_request q). unfold offered.
  destruct (net (suggest_request q)) as [|r] eqn:Hnet; cbn.
  { repeat split; try reflexivity; try congruence.
    intros (r & rs & d & H & _). discriminate. }
  destruct (json r) as [| |rs v] eqn:Hj; cbn.
  1,2: repeat split; try reflexivity; try congruence;
       intros (r0 & rs0 & d & H & H' & _); congruence.
  destruct v as [| |d|z]; cbn.
  1,2: repeat split; try reflexivity; try congruence;
       intros (r0 & rs0 & d & H & H' & _); congruence.
  2: { destruct (z =? 0)%Z; cbn;
       repeat split; try reflexivity; try congruence;
       intros (r0 & rs0 & d & H & H' & _); congruence. }
  destruct (String.eqb_spec d "") as [Hd|Hd]; cbn.
  { repeat split; try reflexivity; try congruence.
    intros (r0 & rs0 & d0 & H & H' & Hne & _). congruence. }
  destruct (String.eqb_spec (toLowerCase d) (toLowerCase q)) as [Hl|Hl]; cbn.
  { repeat split; try reflexivity; try congruence.
    intros (r0 & rs0 & d0 & H & H' & _ & Hne). congruence. }
  repeat split; try reflexivity; try discriminate.
  intros _. now exists r, rs, d.
Qed.

Lemma suggestion_shown_iff_offered_witness :
  trim (textInput (typed " Sofe ")) <> "" /\
  suggestionDiv
    (exec (Furniture.fetchSuggestion
             (always (mkResponse 200 "" (JsonObject None (JStr "sofa")))))
          (typed " Sofe ")) =
  [Parsed (Furniture.suggestion_markup "sofa")] /\
  alerts
    (exec (Furniture.fetchSuggestion
             (always (mkResponse 200 "" (JsonObject None (JStr "sofa")))))
          (typed " Sofe ")) = [].
Proof.
  assert (Hq : trim (textInput (typed " Sofe ")) <> "") by discriminate.
  destruct (suggestion_shown_iff_offered
              (always (mkResponse 200 "" (JsonObject None (JStr "sofa"))))
              (typed " Sofe ") Hq) as (Hshow & _ & Hal & _).
  split; [exact Hq|]. split; [exact Hshow | exact Hal].
Defined.

(** ** The result limit *)

Lemma skipn_length_app {A} (a b : list A) : skipn (length a) (a ++ b) = b.
Proof. induction a as [|x a IH]; simpl; [reflexivity | exact IH]. Qed.

Lemma sent_of_append {A} (c : M A) s extra :
  requests (exec c s) = (requests s ++ extra)%list -> sent c s = extra.
Proof. intros H. unfold sent. rewrite H. apply skipn_length_app. Qed.

Lemma displayResults_requests items s :
  requests (snd (Furniture.displayResults items s)) = requests s.
Proof. rewrite displayResults_run. reflexivity. Qed.

Ltac after_displayResults :=
  match goal with
  | |- context [Furniture.displayResults ?i ?st] =>
      let e := fresh "e" in
      let s1 := fresh "s1" in
      pose proof (displayResults_requests i st) as Hreq;
      destruct (Furniture.displayResults i st) as [[e|[]] s1];
      cbn [snd] in Hreq
  end.

(** [searchText] sends one request, or none when the query is blank. *)
Lemma searchText_sent net s :
  sent (Furniture.searchText net) s =
  if trim (textInput s) =? "" then []
  else [text_search_request (trim (textInput s))].
Proof.
  apply sent_of_append.
  unfold Furniture.searchText. run_script.
  destruct (trim (textInput s) =? ""); cbn [fst snd].
  { cbn. now rewrite app_nil_r. }
  fold (text_search_request (trim (textInput s))).
  destruct (net _) as [|r]; [reflexivity|]. cbn [fst snd].
  destruct (ok r); cbn [negb fst snd]; [|reflexivity].
  destruct (json r) as [| |rs d]; try reflexivity.
  cbn [fst snd].
  after_displayResults; cbn; rewrite Hreq; reflexivity.
Qed.

(** [searchImage] sends one request, or none when no file is picked. *)
Lemma searchImage_sent net s :
  sent (Furniture.searchImage net) s =
  match imageQuery s with
  | [] => []
  | file :: _ => [image_search_request file]
  end.
Proof.
  apply sent_of_append.
  unfold Furniture.searchImage. run_script.
  destruct (imageQuery s) as [|file rest]; cbn [fst snd].
  { cbn. now rewrite app_nil_r. }
  fold (image_search_request file).
  destruct (net _) as [|r]; [reflexivity|]. cbn [fst snd].
  destruct (ok r); cbn [negb fst snd]; [|reflexivity].
  destruct (json r) as [| |rs d]; try reflexivity.
  cbn [fst snd].
  after_displayResults; cbn; rewrite Hreq; reflexivity.
Qed.

(** The query string of a text search has two parameters: the encoded
    query cannot hold a [?] or a [&] that would add or hide one. *)
Lemma text_search_params q :
  query_params (url (text_search_request q)) =
  [("q", encodeURIComponent q); ("k", "10")].
Proof.
  unfold query_params, query_of, text_search_request, GET. cbn [url].
  change ("/search/text?q=" ++ encodeURIComponent q ++ "&k=10")
    with ("/search/text"
          ++ String "?" (("q=" ++ encodeURIComponent q) ++ "&k=10")).
  rewrite (split_app_sep "?") by reflexivity.
  rewrite (split_whole "?").
  2: { rewrite !contains_char_app, encodeURIComponent_no_question.
       reflexivity. }
  change (("q=" ++ encodeURIComponent q) ++ "&k=10")
    with (("q=" ++ encodeURIComponent q) ++ String "&" "k=10").
  rewrite (split_app_sep "&").
  2: { rewrite contains_char_app, encodeURIComponent_no_amp. reflexivity. }
  reflexivity.
Qed.

Example image_search_params file :
  query_params (url (image_search_request file)) = [("k", "10")].
Proof. reflexivity. Qed.

(** C10.  Each of [searchText] and [searchImage] of furniture.js sends at
    most one request, and every request it sends has the parameter [k]
    with the value [10] in its URL, whatever the query, the file and the
    reply. *)
Theorem every_search_requests_ten :
  forall net s,
    length (sent (Furniture.searchText net) s) <= 1 /\
    length (sent (Furniture.searchImage net) s) <= 1 /\
    Forall (fun r => lookup "k" (query_params (url r)) = Some "10")
           (sent (Furniture.searchText net) s) /\
    Forall (fun r => lookup "k" (query_params (url r)) = Some "10")
           (sent (Furniture.searchImage net) s).
Proof.
  intros net s. rewrite searchText_sent, searchImage_sent.
  destruct (trim (textInput s) =? ""), (imageQuery s) as [|file rest];
    cbn [length]; repeat split; try lia;
    repeat constructor; try (rewrite text_search_params); reflexivity.
Qed.

(** ** The debounce timer *)

Section Debounce.

Variable net : network.

(** [fetchSuggestion] never throws, touches no timer, and sends one
    request unless the trimmed query is empty, in which case it empties
    the suggestion view. *)
Lemma fetchSuggestion_frame s :
  let q := trim (textInput s) in
  fst (Furniture.fetchSuggestion net s) = inr tt /\
  timers (snd (Furniture.fetchSuggestion net s)) = timers s /\
  debounceTimer (snd (Furniture.fetchSuggestion net s)) = debounceTimer s /\
  requests (snd (Furniture.fetchSuggestion net s)) =
    (requests s ++ (if q =? "" then [] else [suggest_request q]))%list /\
  (q = "" -> suggestionDiv (snd (Furniture.fetchSuggestion net s)) = []).
Proof.
  intros q. unfold Furniture.fetchSuggestion. run_script. fold q.
  fold (suggest_request q).
  destruct (String.eqb_spec q "") as [Hq|Hq]; cbn [fst snd].
  { cbn. rewrite app_nil_r. repeat split. }
  destruct (net (suggest_request q)) as [|r]; cbn [fst snd].
  { repeat split; contradiction. }
  destruct (json r) as [| |rs v]; cbn [fst snd];
    try (repeat split; contradiction).
  destruct (truthy v); cbn [fst snd]; [|repeat split; contradiction].
  destruct v as [| |d|z]; cbn [fst snd]; try (repeat split; contradiction).
  destruct (negb (toLowerCase d =? toLowerCase q)); cbn [fst snd];
    repeat split; contradiction.
Qed.

Lemma clearTimeout_one_timer s :
  one_timer s ->
  timers (snd (clearTimeout (debounceTimer s) s)) = [].
Proof.
  intros [H | (id & due & H & Hd)].
  - destruct (debounceTimer s); cbn; rewrite ?H; reflexivity.
  - rewrite Hd. cbn. rewrite H. cbn. rewrite Nat.eqb_refl. reflexivity.
Qed.

(** An [input] event from a page with at most one timer: that timer is
    disarmed and a fresh one armed, due 300 ms later. *)
Lemma input_step v s :
  one_timer s -> step net (Input v) s = (inr tt, armed v s).
Proof.
  intros H. pose proof (clearTimeout_one_timer s H) as Hc.
  unfold step, Furniture.on_input, setTimeout, armed.
  unfold read, update, bind, ret. cbn [fst snd debounceTimer set_textInput].
  unfold clearTimeout, update in *.
  destruct (debounceTimer s); cbn in *; rewrite Hc; reflexivity.
Qed.

(** Time passing: the clock moves, the due timers are disarmed and
    [fetchSuggestion] runs for each. *)
Lemma elapse_step ms s :
  step net (Elapse ms) s =
  forEach (fun _ => Furniture.fetchSuggestion net)
    (filter (is_due (clock s + ms)) (timers s))
    (set_timers (filter (fun t => negb (is_due (clock s + ms) t)) (timers s))
       (set_clock (clock s + ms) s)).
Proof. reflexivity. Qed.

Lemma armed_one_timer v s : one_timer (armed v s).
Proof. right. now exists (next_timer s), (clock s + 300). Qed.

Lemma step_keeps_one_timer e s :
  one_timer s ->
  fst (step net e s) = inr tt /\ one_timer (snd (step net e s)).
Proof.
  intros H. destruct e as [v|ms].
  - rewrite (input_step v s H). split; [reflexivity|].
    apply armed_one_timer.
  - rewrite elapse_step.
    destruct H as [H | (id & due & H & Hd)]; rewrite H; cbn [filter].
    + split; [reflexivity | now left].
    + destruct (is_due (clock s + ms) (id, due)); cbn [negb forEach].
      * unfold bind.
        match goal with
        | |- context [Furniture.fetchSuggestion net ?st] =>
            destruct (fetchSuggestion_frame st) as (H1 & H2 & _);
            destruct (Furniture.fetchSuggestion net st) as [[e|[]] s1]
        end; cbn [fst snd] in *; [discriminate|].
        split; [reflexivity | left; exact H2].
      * split; [reflexivity|]. right. now exists id, due.
Qed.

Lemma run_cons e es s :
  run net (e :: es) s =
  match step net e s with
  | (inr _, s') => run net es s'
  | (inl x, s') => (inl x, s')
  end.
Proof. reflexivity. Qed.

Lemma run_app a b s :
  run net (a ++ b) s =
  match run net a s with
  | (inr _, s') => run net b s'
  | (inl x, s') => (inl x, s')
  end.
Proof.
  revert s. induction a as [|e a IH]; intros s; [reflexivity|].
  rewrite <- app_comm_cons, !run_cons.
  destruct (step net e s) as [[x|u] s']; [reflexivity | apply IH].
Qed.

Lemma run_keeps_one_timer es s :
  one_timer s ->
  fst (run net es s) = inr tt /\ one_timer (snd (run net es s)).
Proof.
  revert s. induction es as [|e es IH]; intros s H.
  - split; [reflexivity | exact H].
  - rewrite run_cons.
    destruct (step_keeps_one_timer e s H) as (H1 & H2).
    destruct (step net e s) as [[x|u] s']; cbn [fst snd] in *;
      [discriminate | now apply IH].
Qed.

(** A keystroke followed by a pause shorter than the delay: the timer is
    still armed and nothing was sent. *)
Lemma quiet_key v pause s :
  one_timer s -> pause < 300 ->
  exists s1,
    run net [Input v; Elapse pause] s = (inr tt, s1) /\
    one_timer s1 /\ requests s1 = requests s.
Proof.
  intros H Hp. rewrite run_cons, (input_step v s H), run_cons, elapse_step.
  cbn [timers armed set_debounceTimer set_next_timer set_timers clock
       set_textInput filter].
  replace (is_due (clock s + pause) (next_timer s, clock s + 300)) with false
    by (symmetry; apply Nat.leb_gt; cbn [snd]; lia).
  cbn [negb forEach]. eexists. split; [reflexivity|].
  split; [right; now exists (next_timer s), (clock s + 300) | reflexivity].
Qed.

Lemma burst_is_quiet keys :
  forall s,
    one_timer s -> short_pauses keys ->
    exists s1,
      run net (burst keys) s = (inr tt, s1) /\
      one_timer s1 /\ requests s1 = requests s.
Proof.
  induction keys as [|[v pause] keys IH]; intros s H Hk.
  - exists s. repeat split; assumption.
  - inversion Hk as [|k ks Hp Hks]; subst. cbn [snd] in Hp.
    change (burst ((v, pause) :: keys))
      with ([Input v; Elapse pause] ++ burst keys)%list.
    rewrite run_app.
    destruct (quiet_key v pause s H Hp) as (s1 & -> & H1 & R1).
    destruct (IH s1 H1 Hks) as (s2 & -> & H2 & R2).
    exists s2. repeat split; [exact H2 | congruence].
Qed.

(** The last keystroke followed by a pause of at least the delay: the
    timer fires once, with the value typed last. *)
Lemma last_key v wait s :
  one_timer s -> 300 <= wait ->
  exists s1,
    run net [Input v; Elapse wait] s = (inr tt, s1) /\
    requests s1 =
      (requests s
       ++ (if trim v =? "" then [] else [suggest_request (trim v)]))%list /\
    (trim v = "" -> suggestionDiv s1 = []) /\
    timers s1 = [].
Proof.
  intros H Hw. rewrite run_cons, (input_step v s H), run_cons, elapse_step.
  cbn [timers armed set_debounceTimer set_next_timer set_timers clock
       set_textInput filter].
  replace (is_due (clock s + wait) (next_timer s, clock s + 300)) with true
    by (symmetry; apply Nat.leb_le; cbn [snd]; lia).
  cbn [negb forEach]. unfold bind.
  match goal with
  | |- context [Furniture.fetchSuggestion net ?st] =>
      destruct (fetchSuggestion_frame st) as (H1 & H2 & _ & H4 & H5);
      destruct (Furniture.fetchSuggestion net st) as [[e|[]] s1]
  end; cbn [fst snd] in *; [discriminate|].
  exists s1. split; [reflexivity|]. repeat split; assumption.
Qed.

End Debounce.

(** C9.  From a page with at most one armed timer, named by the handle
    (the page as loaded is one): every [input] event disarms that timer
    and arms one due 300 ms later; after any sequence of input events and
    lapses of time at most one timer is armed; and a burst of input
    events, each followed by less than 300 ms of quiet, then a last one
    followed by at least 300 ms, sends exactly one suggestion request,
    for the trimmed value typed last, or none when that value is blank,
    the suggestion view then being emptied. *)
Theorem debounce_sends_one_request :
  forall net s,
    one_timer s ->
    (forall v, exec (step net (Input v)) s = armed v s) /\
    (forall es, one_timer (exec (run net es) s)) /\
    (forall keys v wait,
        short_pauses keys -> 300 <= wait ->
        let es := (burst keys ++ [Input v; Elapse wait])%list in
        sent (run net es) s =
          (if trim v =? "" then [] else [suggest_request (trim v)]) /\
        (trim v = "" -> suggestionDiv (exec (run net es) s) = []) /\
        timers (exec (run net es) s) = []).
Proof.
  intros net s H. split; [|split].
  - intros v. unfold exec. now rewrite (input_step net v s H).
  - intros es. apply run_keeps_one_timer, H.
  - intros keys v wait Hk Hw es. subst es.
    destruct (burst_is_quiet net keys s H Hk) as (s1 & E1 & H1 & R1).
    destruct (last_key net v wait s1 H1 Hw) as (s2 & E2 & R2 & S2 & T2).
    assert (E : run net (burst keys ++ [Input v; Elapse wait]) s = (inr tt, s2))
      by (rewrite run_app, E1; exact E2).
    split; [|split].
    + apply sent_of_append. unfold exec. rewrite E. cbn [snd]. congruence.
    + unfold exec. rewrite E. exact S2.
    + unfold exec. rewrite E. exact T2.
Qed.

Lemma debounce_sends_one_request_witness :
  one_timer fresh_page /\
  short_pauses [("s", 100); ("so", 120); ("sof", 299)] /\
  300 <= 300 /\
  sent (run (always (mkResponse 200 "" (JsonObject None JUndefined)))
            (burst [("s", 100); ("so", 120); ("sof", 299)]
             ++ [Input " sofa "; Elapse 300]))
       fresh_page =
  [suggest_request "sofa"].
Proof.
  assert (H0 : one_timer fresh_page) by (left; reflexivity).
  assert (Hk : short_pauses [("s", 100); ("so", 120); ("sof", 299)])
    by (repeat constructor; cbn; lia).
  assert (Hw : 300 <= 300) by lia.
  destruct (debounce_sends_one_request
              (always (mkResponse 200 "" (JsonObject None JUndefined)))
              fresh_page H0) as (_ & _ & Hb).
  destruct (Hb [("s", 100); ("so", 120); ("sof", 299)] " sofa " 300 Hk Hw)
    as (Hs & _).
  split; [exact H0|]. split; [exact Hk|]. split; [exact Hw | exact Hs].
Defined.

(* ================================================================== *)
(** * Part III: further properties of the three revisions *)
(* ================================================================== *)

(** ** Searches of furniture.js, case by case *)

Lemma furniture_searchText_run net s :
  Furniture.searchText net s =
  (inr tt,
   if trim (textInput s) =? ""
   then set_alerts (alerts s ++ ["Enter a text query"]) s
   else settled "Error fetching results: "
          (net (text_search_request (trim (textInput s))))
          (dispatched (text_search_request (trim (textInput s))) s)).
Proof.
  unfold Furniture.searchText, settled, dispatched. run_script.
  destruct (trim (textInput s) =? ""); cbn [fst snd]; [reflexivity|].
  fold (text_search_request (trim (textInput s))).
  destruct (net _) as [|r]; [reflexivity|]. cbn [fst snd].
  destruct (ok r); cbn [negb fst snd]; [|reflexivity].
  destruct (json r) as [| |rs d]; try reflexivity.
  cbn [fst snd]. rewrite displayResults_run.
  destruct (forallb has_path (Furniture.results_or_empty rs)); reflexivity.
Qed.

Lemma furniture_searchImage_run net s :
  Furniture.searchImage net s =
  (inr tt,
   match imageQuery s with
   | [] => set_alerts (alerts s ++ ["Select an image first"]) s
   | file :: _ =>
       settled "Error fetching image results: "
         (net (image_search_request file))
         (dispatched (image_search_request file) s)
   end).
Proof.
  unfold Furniture.searchImage, settled, dispatched. run_script.
  destruct (imageQuery s) as [|file rest]; cbn [fst snd]; [reflexivity|].
  fold (image_search_request file).
  destruct (net _) as [|r]; [reflexivity|]. cbn [fst snd].
  destruct (ok r); cbn [negb fst snd]; [|reflexivity].
  destruct (json r) as [| |rs d]; try reflexivity.
  cbn [fst snd]. rewrite displayResults_run.
  destruct (forallb has_path (Furniture.results_or_empty rs)); reflexivity.
Qed.

(** What a settled reply leaves alone. *)
Lemma settled_frame label reply s0 :
  timers (settled label reply s0) = timers s0 /\
  debounceTimer (settled label reply s0) = debounceTimer s0 /\
  next_timer (settled label reply s0) = next_timer s0 /\
  clock (settled label reply s0) = clock s0 /\
  textInput (settled label reply s0) = textInput s0 /\
  imageQuery (settled label reply s0) = imageQuery s0 /\
  suggestionDiv (settled label reply s0) = suggestionDiv s0 /\
  requests (settled label reply s0) = requests s0 /\
  console (settled label reply s0) = console s0.
Proof.
  unfold settled. destruct reply as [|r]; [repeat split|].
  destruct (ok r); [|repeat split].
  destruct (json r) as [| |rs d]; try (repeat split).
  all: destruct (forallb has_path (Furniture.results_or_empty rs));
    reflexivity.
Qed.

(** Unless the reply makes the search render, the results stay and one
    alert is raised. *)
Lemma settled_without_rendering label reply s0 :
  renders reply = false ->
  resultsDiv (settled label reply s0) = resultsDiv s0 /\
  resultsCount (settled label reply s0) = resultsCount s0 /\
  exists msg, alerts (settled label reply s0) = (alerts s0 ++ [msg])%list.
Proof.
  unfold settled, renders. destruct reply as [|r]; [intros _|].
  { repeat split. eexists. reflexivity. }
  destruct (ok r); cbn [andb].
  2: { intros _. repeat split. eexists. reflexivity. }
  destruct (json r); intros H; try discriminate;
    repeat split; eexists; reflexivity.
Qed.

(** X1.  [searchText] of the three revisions on a blank query (nothing
    but white space in the text field): one alert asks for a query, no
    request is sent and nothing else on the page changes. *)
Theorem searchText_blank_query :
  forall net s,
    trim (textInput s) = "" ->
    exec (Furniture.searchText net) s =
      set_alerts (alerts s ++ ["Enter a text query"]) s /\
    exec (Part000.searchText net) s =
      set_alerts (alerts s ++ ["Enter a text query"]) s /\
    exec (Part001.searchText net) s =
      set_alerts (alerts s ++ ["Please enter a text query"]) s /\
    sent (Furniture.searchText net) s = [] /\
    sent (Part000.searchText net) s = [] /\
    sent (Part001.searchText net) s = [].
Proof.
  intros net s H.
  assert (E0 : exec (Furniture.searchText net) s =
               set_alerts (alerts s ++ ["Enter a text query"]) s).
  { unfold exec. rewrite furniture_searchText_run, H. reflexivity. }
  assert (E1 : exec (Part000.searchText net) s =
               set_alerts (alerts s ++ ["Enter a text query"]) s).
  { unfold Part000.searchText. run_script. rewrite H. reflexivity. }
  assert (E2 : exec (Part001.searchText net) s =
               set_alerts (alerts s ++ ["Please enter a text query"]) s).
  { unfold Part001.searchText. run_script. rewrite H. reflexivity. }
  repeat split; try assumption;
    apply sent_of_append; rewrite ?E0, ?E1, ?E2; cbn;
    now rewrite app_nil_r.
Qed.

Lemma searchText_blank_query_witness :
  trim (textInput (typed "   ")) = "" /\
  alerts (exec (Furniture.searchText (always server_error)) (typed "   ")) =
    ["Enter a text query"] /\
  requests (exec (Furniture.searchText (always server_error)) (typed "   ")) =
    [].
Proof.
  assert (H : trim (textInput (typed "   ")) = "") by reflexivity.
  destruct (searchText_blank_query (always server_error) (typed "   ") H)
    as (E & _).
  split; [exact H|]. rewrite E. split; reflexivity.
Defined.

(** X2.  [searchImage] of the three revisions when no file is picked:
    one alert asks for an image, no request is sent and nothing else on
    the page changes. *)
Theorem searchImage_no_file :
  forall net s,
    imageQuery s = [] ->
    exec (Furniture.searchImage net) s =
      set_alerts (alerts s ++ ["Select an image first"]) s /\
    exec (Part000.searchImage net) s =
      set_alerts (alerts s ++ ["Select an image first"]) s /\
    exec (Part001.searchImage net) s =
      set_alerts (alerts s ++ ["Please select an image first"]) s /\
    sent (Furniture.searchImage net) s = [] /\
    sent (Part000.searchImage net) s = [] /\
    sent (Part001.searchImage net) s = [].
Proof.
  intros net s H.
  assert (E0 : exec (Furniture.searchImage net) s =
               set_alerts (alerts s ++ ["Select an image first"]) s).
  { unfold exec. rewrite furniture_searchImage_run, H. reflexivity. }
  assert (E1 : exec (Part000.searchImage net) s =
               set_alerts (alerts s ++ ["Select an image first"]) s).
  { unfold Part000.searchImage. run_script. rewrite H. reflexivity. }
  assert (E2 : exec (Part001.searchImage net) s =
               set_alerts (alerts s ++ ["Please select an image first"]) s).
  { unfold Part001.searchImage. run_script. rewrite H. reflexivity. }
  repeat split; try assumption;
    apply sent_of_append; rewrite ?E0, ?E1, ?E2; cbn;
    now rewrite app_nil_r.
Qed.

Lemma searchImage_no_file_witness :
  imageQuery fresh_page = [] /\
  alerts (exec (Furniture.searchImage (always server_error)) fresh_page) =
    ["Select an image first"] /\
  requests (exec (Furniture.searchImage (always server_error)) fresh_page) =
    [].
Proof.
  assert (H : imageQuery fresh_page = []) by reflexivity.
  destruct (searchImage_no_file (always server_error) fresh_page H)
    as (E & _).
  split; [exact H|]. rewrite E. split; reflexivity.
Defined.

Lemma settled_rendering label r rs d s0 :
  ok r = true -> json r = JsonObject rs d ->
  let items := Furniture.results_or_empty rs in
  resultsDiv (settled label (Reply r) s0) =
    resultsDiv (exec (Furniture.displayResults items) s0) /\
  resultsCount (settled label (Reply r) s0) =
    resultsCount (exec (Furniture.displayResults items) s0) /\
  alerts (settled label (Reply r) s0) =
    (alerts s0
     ++ (if forallb has_path items then []
         else [(label ++ exn_to_string TypeError)%string]))%list.
Proof.
  intros Hok Hj items. unfold settled, exec. rewrite Hok, Hj.
  rewrite displayResults_run. fold items.
  destruct (forallb has_path items); cbn; rewrite ?app_nil_r; repeat split.
Qed.

(** X3.  [searchText] of furniture.js on a success whose body is a JSON
    object: the results region and the count label are what
    [displayResults] makes of [data.results || []] (the placeholder and
    [0 items] when [results] is missing), the suggestion view is empty,
    and there is no alert unless a record has no string [image_path], in
    which case the records before it stay rendered and one alert reports
    the [TypeError]. *)
Theorem searchText_renders_success :
  forall net s r rs d,
    trim (textInput s) <> "" ->
    net (text_search_request (trim (textInput s))) = Reply r ->
    ok r = true ->
    json r = JsonObject rs d ->
    let items := Furniture.results_or_empty rs in
    let s' := exec (Furniture.searchText net) s in
    resultsDiv s' = resultsDiv (exec (Furniture.displayResults items) s) /\
    resultsCount s' = resultsCount (exec (Furniture.displayResults items) s) /\
    result_blocks (resultsDiv s') = length (renderable items) /\
    suggestionDiv s' = [] /\
    alerts s' =
      (alerts s
       ++ (if forallb has_path items then []
           else ["Error fetching results: TypeError"]))%list.
Proof.
  intros net s r rs d Hq Hnet Hok Hj items s'. subst s'.
  unfold exec at 1 3 5 6 7. rewrite furniture_searchText_run.
  apply String.eqb_neq in Hq. rewrite Hq, Hnet. cbn [snd].
  destruct (settled_rendering "Error fetching results: " r rs d
              (dispatched (text_search_request (trim (textInput s))) s)
              Hok Hj) as (H1 & H2 & H3).
  destruct (settled_frame "Error fetching results: " (Reply r)
              (dispatched (text_search_request (trim (textInput s))) s))
    as (_ & _ & _ & _ & _ & _ & H4 & _).
  fold items in H1, H2, H3.
  rewrite H1, H2, H3, H4. unfold exec. rewrite !displayResults_run.
  cbn [snd resultsDiv resultsCount set_resultsDiv set_resultsCount].
  repeat split.
  destruct items; [reflexivity | apply result_blocks_map_block_of].
Qed.

Lemma searchText_renders_success_witness :
  trim (textInput (typed "sofa")) <> "" /\
  ok (mkResponse 200 "" (JsonObject (Some [sofa]) JUndefined)) = true /\
  result_blocks
    (resultsDiv
       (exec (Furniture.searchText
                (always (mkResponse 200 "" (JsonObject (Some [sofa]) JUndefined))))
             (typed "sofa"))) = 1 /\
  alerts
    (exec (Furniture.searchText
             (always (mkResponse 200 "" (JsonObject (Some [sofa]) JUndefined))))
          (typed "sofa")) = [].
Proof.
  assert (Hq : trim (textInput (typed "sofa")) <> "") by discriminate.
  assert (Hok : ok (mkResponse 200 "" (JsonObject (Some [sofa]) JUndefined))
                = true) by reflexivity.
  destruct (searchText_renders_success
              (always (mkResponse 200 "" (JsonObject (Some [sofa]) JUndefined)))
              (typed "sofa") _ (Some [sofa]) JUndefined Hq eq_refl Hok eq_refl)
    as (_ & _ & Hb & _ & Ha).
  split; [exact Hq|]. split; [exact Hok|]. split; [exact Hb | exact Ha].
Defined.

(** X4.  [searchImage] of furniture.js on a success whose body is a JSON
    object: as for [searchText], with the alert of the image search. *)
Theorem searchImage_renders_success :
  forall net s file rest r rs d,
    imageQuery s = file :: rest ->
    net (image_search_request file) = Reply r ->
    ok r = true ->
    json r = JsonObject rs d ->
    let items := Furniture.results_or_empty rs in
    let s' := exec (Furniture.searchImage net) s in
    resultsDiv s' = resultsDiv (exec (Furniture.displayResults items) s) /\
    resultsCount s' = resultsCount (exec (Furniture.displayResults items) s) /\
    result_blocks (resultsDiv s') = length (renderable items) /\
    suggestionDiv s' = [] /\
    alerts s' =
      (alerts s
       ++ (if forallb has_path items then []
           else ["Error fetching image results: TypeError"]))%list.
Proof.
  intros net s file rest r rs d Hf Hnet Hok Hj items s'. subst s'.
  unfold exec at 1 3 5 6 7. rewrite furniture_searchImage_run.
  rewrite Hf, Hnet. cbn [snd].
  destruct (settled_rendering "Error fetching image results: " r rs d
              (dispatched (image_search_request file) s) Hok Hj)
    as (H1 & H2 & H3).
  destruct (settled_frame "Error fetching image results: " (Reply r)
              (dispatched (image_search_request file) s))
    as (_ & _ & _ & _ & _ & _ & H4 & _).
  fold items in H1, H2, H3.
  rewrite H1, H2, H3, H4. unfold exec. rewrite !displayResults_run.
  cbn [snd resultsDiv resultsCount set_resultsDiv set_resultsCount].
  repeat split.
  destruct items; [reflexivity | apply result_blocks_map_block_of].
Qed.

Lemma searchImage_renders_success_witness :
  imageQuery showing_old = ["photo.png"] /\
  ok (mkResponse 200 "" (JsonObject (Some [chair; no_path]) JUndefined))
    = true /\
  result_blocks
    (resultsDiv
       (exec (Furniture.searchImage
                (always (mkResponse 200 ""
                           (JsonObject (Some [chair; no_path]) JUndefined))))
             showing_old)) = 1 /\
  alerts
    (exec (Furniture.searchImage
             (always (mkResponse 200 ""
                        (JsonObject (Some [chair; no_path]) JUndefined))))
          showing_old) = ["Error fetching image results: TypeError"].
Proof.
  assert (Hf : imageQuery showing_old = ["photo.png"]) by reflexivity.
  assert (Hok : ok (mkResponse 200 ""
                      (JsonObject (Some [chair; no_path]) JUndefined)) = true)
    by reflexivity.
  destruct (searchImage_renders_success
              (always (mkResponse 200 ""
                         (JsonObject (Some [chair; no_path]) JUndefined)))
              showing_old "photo.png" [] _ (Some [chair; no_path]) JUndefined
              Hf eq_refl Hok eq_refl)
    as (_ & _ & Hb & _ & Ha).
  split; [exact Hf|]. split; [exact Hok|]. split; [exact Hb | exact Ha].
Defined.

(** X5.  The searches of furniture.js touch the results region and the
    count label only for a success whose body is a JSON object.  On a
    blank query or no file, no reply at all, a status that is not a
    success, a body that is not JSON or is [null], both are left as they
    were and exactly one alert is raised. *)
Theorem search_without_success_keeps_results :
  forall net s,
    (trim (textInput s) = "" \/
     renders (net (text_search_request (trim (textInput s)))) = false ->
     resultsDiv (exec (Furniture.searchText net) s) = resultsDiv s /\
     resultsCount (exec (Furniture.searchText net) s) = resultsCount s /\
     length (alerts (exec (Furniture.searchText net) s)) =
       S (length (alerts s))) /\
    (imageQuery s = [] \/
     (exists file rest,
         imageQuery s = file :: rest /\
         renders (net (image_search_request file)) = false) ->
     resultsDiv (exec (Furniture.searchImage net) s) = resultsDiv s /\
     resultsCount (exec (Furniture.searchImage net) s) = resultsCount s /\
     length (alerts (exec (Furniture.searchImage net) s)) =
       S (length (alerts s))).
Proof.
  intros net s. split; intros H; unfold exec.
  - rewrite furniture_searchText_run. cbn [snd].
    destruct (String.eqb_spec (trim (textInput s)) "") as [E|E].
    { cbn. rewrite length_app. cbn. repeat split. lia. }
    destruct H as [H|H]; [contradiction|].
    destruct (settled_without_rendering "Error fetching results: " _
                (dispatched (text_search_request (trim (textInput s))) s) H)
      as (H1 & H2 & msg & H3).
    rewrite H1, H2, H3, length_app. cbn. repeat split. lia.
  - rewrite furniture_searchImage_run. cbn [snd].
    destruct H as [H | (file & rest & Hf & H)].
    { rewrite H. cbn. rewrite length_app. cbn. repeat split. lia. }
    rewrite Hf.
    destruct (settled_without_rendering "Error fetching image results: " _
                (dispatched (image_search_request file) s) H)
      as (H1 & H2 & msg & H3).
    rewrite H1, H2, H3, length_app. cbn. repeat split. lia.
Qed.

Lemma search_without_success_keeps_results_witness :
  renders (always server_error
             (text_search_request (trim (textInput (set_textInput "sofa" showing_old)))))
    = false /\
  resultsDiv (exec (Furniture.searchText (always server_error))
                   (set_textInput "sofa" showing_old)) =
    resultsDiv showing_old /\
  length (alerts (exec (Furniture.searchText (always server_error))
                       (set_textInput "sofa" showing_old))) = 1.
Proof.
  assert (H : renders (always server_error
                (text_search_request
                   (trim (textInput (set_textInput "sofa" showing_old)))))
              = false) by reflexivity.
  destruct (search_without_success_keeps_results (always server_error)
              (set_textInput "sofa" showing_old)) as (Ht & _).
  destruct (Ht (or_intror H)) as (H1 & _ & H3).
  split; [exact H|]. split; [exact H1 | exact H3].
Defined.

(** [searchText] never throws and leaves the timers, the clock and the
    text field alone. *)
Lemma searchText_frame net s :
  fst (Furniture.searchText net s) = inr tt /\
  timers (snd (Furniture.searchText net s)) = timers s /\
  debounceTimer (snd (Furniture.searchText net s)) = debounceTimer s /\
  next_timer (snd (Furniture.searchText net s)) = next_timer s /\
  clock (snd (Furniture.searchText net s)) = clock s /\
  textInput (snd (Furniture.searchText net s)) = textInput s.
Proof.
  rewrite furniture_searchText_run. cbn [fst snd].
  destruct (trim (textInput s) =? ""); [repeat split|].
  destruct (settled_frame "Error fetching results: "
              (net (text_search_request (trim (textInput s))))
              (dispatched (text_search_request (trim (textInput s))) s))
    as (H1 & H2 & H3 & H4 & H5 & _).
  rewrite H1, H2, H3, H4, H5. repeat split.
Qed.

(** What [fetchSuggestion] leaves in the suggestion view. *)
Lemma fetchSuggestion_view net s :
  trim (textInput s) <> "" ->
  suggestionDiv (snd (Furniture.fetchSuggestion net s)) =
  match offered (net (suggest_request (trim (textInput s))))
                (trim (textInput s)) with
  | Some d => [Parsed (Furniture.suggestion_markup d)]
  | None => []
  end.
Proof.
  intros Hq. apply String.eqb_neq in Hq.
  unfold Furniture.fetchSuggestion. run_script. rewrite Hq.
  cbn [fst snd]. fold (suggest_request (trim (textInput s))).
  unfold offered.
  destruct (net _) as [|r]; [reflexivity|]. cbn [fst snd].
  destruct (json r) as [| |rs v]; try reflexivity. cbn [fst snd].
  destruct v as [| |d|z]; try reflexivity; cbn [truthy].
  - destruct (d =? ""); cbn [negb andb fst snd]; [reflexivity|].
    destruct (toLowerCase d =? toLowerCase (trim (textInput s)));
      reflexivity.
  - destruct (z =? 0)%Z; reflexivity.
Qed.

(** X6.  [searchText] of furniture.js empties the suggestion view but
    does not disarm the debounce timer.  After a keystroke, a search
    made at once and 300 ms without input, the timer armed by the
    keystroke has fired: the search request is followed by one
    suggestion request for the same text, and the suggestion view shows
    again whatever the reply offers. *)
Theorem search_keeps_debounce_timer :
  forall net s v,
    one_timer s ->
    trim v <> "" ->
    timers (exec (Furniture.searchText net) (armed v s)) =
      [(next_timer s, clock s + 300)] /\
    sent (type_search_wait net v) s =
      [text_search_request (trim v); suggest_request (trim v)] /\
    suggestionDiv (exec (type_search_wait net v) s) =
      match offered (net (suggest_request (trim v))) (trim v) with
      | Some d => [Parsed (Furniture.suggestion_markup d)]
      | None => []
      end.
Proof.
  intros net s v H Hv.
  pose proof Hv as Hv'. apply String.eqb_neq in Hv'.
  destruct (searchText_frame net (armed v s))
    as (F0 & F1 & F2 & F3 & F4 & F5).
  cbn [timers clock textInput armed set_debounceTimer set_next_timer
       set_timers set_textInput] in F1, F4, F5.
  split; [exact F1|].
  assert (R1 : requests (snd (Furniture.searchText net (armed v s))) =
               (requests s ++ [text_search_request (trim v)])%list).
  { rewrite furniture_searchText_run. cbn [snd textInput armed
      set_debounceTimer set_next_timer set_timers set_textInput].
    rewrite Hv'.
    destruct (settled_frame "Error fetching results: "
                (net (text_search_request (trim v)))
                (dispatched (text_search_request (trim v)) (armed v s)))
      as (_ & _ & _ & _ & _ & _ & _ & HR & _).
    cbn [textInput armed set_debounceTimer set_next_timer set_timers
         set_textInput] in HR.
    rewrite HR. reflexivity. }
  assert (E : exec (type_search_wait net v) s =
              exec (Furniture.fetchSuggestion net)
                (set_timers []
                   (set_clock (clock s + 300)
                      (snd (Furniture.searchText net (armed v s)))))).
  { unfold exec, type_search_wait, bind.
    rewrite (input_step net v s H).
    destruct (Furniture.searchText net (armed v s)) as [o s1].
    cbn [fst snd] in *. subst o. rewrite elapse_step, F1, F4. cbn [filter].
    replace (is_due (clock s + 300) (next_timer s, clock s + 300)) with true
      by (symmetry; apply Nat.leb_le; cbn [snd]; lia).
    cbn [negb forEach]. unfold bind.
    destruct (Furniture.fetchSuggestion net _) as [[e|[]] s2];
      reflexivity. }
  set (s2 := set_timers []
               (set_clock (clock s + 300)
                  (snd (Furniture.searchText net (armed v s))))) in E.
  assert (T2 : textInput s2 = v)
    by (subst s2; cbn [textInput set_timers set_clock]; exact F5).
  assert (Q2 : trim (textInput s2) <> "") by (rewrite T2; exact Hv).
  pose proof (fetchSuggestion_view net s2 Q2) as S1.
  destruct (fetchSuggestion_frame net s2) as (_ & _ & _ & S2 & _).
  rewrite T2 in S1, S2. apply String.eqb_neq in Hv. rewrite Hv in S2.
  split.
  - apply sent_of_append. rewrite E. unfold exec. rewrite S2. subst s2.
    cbn [requests set_timers set_clock]. rewrite R1, <- app_assoc.
    reflexivity.
  - rewrite E. exact S1.
Qed.

Lemma search_keeps_debounce_timer_witness :
  one_timer fresh_page /\
  trim "sofe" <> "" /\
  sent (type_search_wait
          (always (mkResponse 200 "" (JsonObject None (JStr "sofa")))) "sofe")
       fresh_page =
    [text_search_request "sofe"; suggest_request "sofe"] /\
  suggestionDiv
    (exec (type_search_wait
             (always (mkResponse 200 "" (JsonObject None (JStr "sofa")))) "sofe")
          fresh_page) =
    [Parsed (Furniture.suggestion_markup "sofa")].
Proof.
  assert (H0 : one_timer fresh_page) by (left; reflexivity).
  assert (Hv : trim "sofe" <> "") by discriminate.
  destruct (search_keeps_debounce_timer
              (always (mkResponse 200 "" (JsonObject None (JStr "sofa"))))
              fresh_page "sofe" H0 Hv) as (_ & Hs & Hd).
  split; [exact H0|]. split; [exact Hv|]. split; [exact Hs | exact Hd].
Defined.



(** ** Image URLs *)

(** X8.  The image URL of furniture.js starts with [/static] for every
    string path, the empty one included, and resolving a resolved URL
    gives it back: a URL is never prefixed twice. *)
Theorem resolve_src_idempotent :
  forall p,
    startsWith (Furniture.resolve_src p) "/static" = true /\
    Furniture.resolve_src (Furniture.resolve_src p) = Furniture.resolve_src p.
Proof.
  intros p.
  assert (H : startsWith (Furniture.resolve_src p) "/static" = true).
  { unfold Furniture.resolve_src.
    destruct (startsWith p "/static") eqn:E1; [exact E1|].
    destruct (startsWith p "static") eqn:E2; [exact E2 | reflexivity]. }
  split; [exact H|].
  unfold Furniture.resolve_src at 1. rewrite H. reflexivity.
Qed.

(** X9.  The image URL of part_000 also starts with [/static] and is
    stable, but it has two tiers only: a path that does not start with
    [/static] is reduced to what follows its last [/] and put directly
    under [/static/], so the directories of a path such as
    [static/uploads/a.jpg] are all dropped, [uploads] included. *)
Theorem part000_resolve_src_two_tiers :
  forall p,
    startsWith (Part000.resolve_src p) "/static" = true /\
    Part000.resolve_src (Part000.resolve_src p) = Part000.resolve_src p /\
    (startsWith p "/static" = true -> Part000.resolve_src p = p) /\
    (startsWith p "/static" = false ->
     Part000.resolve_src p = "/static/" ++ pop (split "/" p) /\
     contains_char "/" (pop (split "/" p)) = false /\
     (startsWith p "static" = true ->
      Furniture.resolve_src p = "/" ++ p)).
Proof.
  intros p.
  assert (H : startsWith (Part000.resolve_src p) "/static" = true).
  { unfold Part000.resolve_src.
    destruct (startsWith p "/static") eqn:E1; [exact E1 | reflexivity]. }
  split; [exact H|]. split.
  { unfold Part000.resolve_src at 1. rewrite H. reflexivity. }
  unfold Part000.resolve_src, Furniture.resolve_src.
  split; intros E; rewrite E; [reflexivity|].
  repeat split; [apply pop_split_no_sep|].
  intros E2. rewrite E2. reflexivity.
Qed.

Lemma part000_resolve_src_two_tiers_witness :
  startsWith "static/uploads/a.jpg" "/static" = false /\
  Part000.resolve_src "static/uploads/a.jpg" = "/static/a.jpg" /\
  Furniture.resolve_src "static/uploads/a.jpg" = "/static/uploads/a.jpg".
Proof.
  assert (H : startsWith "static/uploads/a.jpg" "/static" = false)
    by reflexivity.
  destruct (part000_resolve_src_two_tiers "static/uploads/a.jpg")
    as (_ & _ & _ & Hb).
  destruct (Hb H) as (H1 & _ & H2).
  split; [exact H|]. split; [exact H1 | exact (H2 eq_refl)].
Defined.

(** ** The count label and the blocks *)

Lemma renderable_shorter items :
  forallb has_path items = false -> length (renderable items) < length items.
Proof.
  induction items as [|it r IH]; cbn [forallb renderable length];
    [discriminate|].
  destruct (has_path it); cbn [andb length]; [|lia].
  intros H. apply IH in H. lia.
Qed.

(** X10.  In furniture.js the count label counts the records received,
    not the blocks rendered: when some record has no string
    [image_path] the label still shows the full number while fewer
    blocks stand in the results region. *)
Theorem count_label_overstates :
  forall items s,
    forallb has_path items = false ->
    resultsCount (exec (Furniture.displayResults items) s) =
      Furniture.count_label (length items) /\
    result_blocks (resultsDiv (exec (Furniture.displayResults items) s)) <
      length items.
Proof.
  intros items s H. unfold exec. rewrite displayResults_run.
  cbn [snd resultsCount resultsDiv set_resultsDiv set_resultsCount].
  split; [reflexivity|].
  destruct items as [|it r]; [discriminate|].
  rewrite result_blocks_map_block_of. now apply renderable_shorter.
Qed.

Lemma count_label_overstates_witness :
  forallb has_path [sofa; no_path; chair] = false /\
  resultsCount (exec (Furniture.displayResults [sofa; no_path; chair])
                     fresh_page) = "3 items" /\
  result_blocks
    (resultsDiv (exec (Furniture.displayResults [sofa; no_path; chair])
                      fresh_page)) < 3.
Proof.
  assert (H : forallb has_path [sofa; no_path; chair] = false)
    by reflexivity.
  destruct (count_label_overstates [sofa; no_path; chair] fresh_page H)
    as (H1 & H2).
  split; [exact H|]. split; [exact H1 | exact H2].
Defined.

(** ** Rendering in part_000 and part_001 *)

Lemma part000_render_item_run it s :
  Part000.render_item it s =
  if has_path it
  then (inr tt, set_resultsDiv (resultsDiv s ++ [part000_block it]) s)
  else (inl TypeError, s).
Proof.
  unfold Part000.render_item, Part000.image_src, has_path, part000_block, bind.
  destruct (image_path it); reflexivity.
Qed.

Lemma part000_forEach_render_item items s :
  forEach Part000.render_item items s =
  (if forallb has_path items then inr tt else inl TypeError,
   set_resultsDiv (resultsDiv s ++ map part000_block (renderable items)) s).
Proof.
  revert s. induction items as [|it r IH]; intros s.
  - simpl. rewrite app_nil_r, set_resultsDiv_id. reflexivity.
  - cbn [forEach forallb renderable]. unfold bind.
    rewrite part000_render_item_run. destruct (has_path it); cbn [andb map].
    + rewrite IH. cbn [resultsDiv set_resultsDiv].
      rewrite <- app_assoc. reflexivity.
    + rewrite app_nil_r, set_resultsDiv_id. reflexivity.
Qed.

Lemma part000_displayResults_run items s :
  Part000.displayResults (Some items) s =
  (if forallb has_path items then inr tt else inl TypeError,
   set_resultsDiv
     (match items with
      | [] => [Parsed Part000.no_results_markup]
      | _ => map part000_block (renderable items)
      end)
     (set_resultsCount (Furniture.count_label (length items)) s)).
Proof.
  unfold Part000.displayResults.
  destruct items as [|it r]; [reflexivity|].
  unfold bind at 1 2. cbn [update length Nat.eqb].
  rewrite part000_forEach_render_item. reflexivity.
Qed.

Lemma result_blocks_map_part000_block l :
  forallb has_path l = true ->
  result_blocks (map part000_block l) = length l.
Proof.
  unfold result_blocks. induction l as [|it r IH]; [reflexivity|].
  cbn [forallb map]. intros H. apply andb_true_iff in H as [H1 H2].
  unfold has_path in H1. unfold part000_block at 1.
  destruct (image_path it); try discriminate. simpl. now rewrite IH.
Qed.

Lemma renderable_has_path items : forallb has_path (renderable items) = true.
Proof.
  induction items as [|it r IH]; [reflexivity|].
  cbn [renderable]. destruct (has_path it) eqn:E; [|reflexivity].
  cbn [forallb]. now rewrite E, IH.
Qed.

(** X11.  [displayResults] of part_000 renders a list as furniture.js
    does: one block per record up to the first record without a string
    [image_path], where it throws, and the count label set to the full
    number.  Called with [undefined], as its callers do when the reply
    has no [results], it empties the results region, leaves the count
    label of the earlier results standing and throws. *)
Theorem part000_displayResults_behaviour :
  forall s,
    (forall items,
        result_blocks
          (resultsDiv (exec (Part000.displayResults (Some items)) s)) =
          length (renderable items) /\
        resultsCount (exec (Part000.displayResults (Some items)) s) =
          Furniture.count_label (length items) /\
        outcome (Part000.displayResults (Some items)) s =
          (if forallb has_path items then inr tt else inl TypeError)) /\
    resultsDiv (exec (Part000.displayResults None) s) = [] /\
    resultsCount (exec (Part000.displayResults None) s) = resultsCount s /\
    outcome (Part000.displayResults None) s = inl TypeError.
Proof.
  intros s. split; [|repeat split].
  intros items. unfold exec, outcome. rewrite part000_displayResults_run.
  cbn [fst snd resultsDiv resultsCount set_resultsDiv set_resultsCount].
  repeat split.
  destruct items as [|it r]; [reflexivity|].
  apply result_blocks_map_part000_block, renderable_has_path.
Qed.

(** X12.  A success whose JSON object has no [results]: [searchText] of
    furniture.js, which passes [data.results || []], shows the
    no-results placeholder and [0 items] without any alert, while
    [searchText] of part_000, which passes [data.results] as it is,
    empties the results region, keeps the old count label and alerts a
    [TypeError]. *)
Theorem missing_results_field :
  forall net s r d,
    trim (textInput s) <> "" ->
    net (text_search_request (trim (textInput s))) = Reply r ->
    ok r = true ->
    json r = JsonObject None d ->
    (resultsDiv (exec (Furniture.searchText net) s) =
       [Parsed Furniture.no_results_markup] /\
     resultsCount (exec (Furniture.searchText net) s) = "0 items" /\
     alerts (exec (Furniture.searchText net) s) = alerts s) /\
    (resultsDiv (exec (Part000.searchText net) s) = [] /\
     resultsCount (exec (Part000.searchText net) s) = resultsCount s /\
     alerts (exec (Part000.searchText net) s) =
       (alerts s ++ ["Error fetching results: TypeError"])%list).
Proof.
  intros net s r d Hq Hnet Hok Hj. apply String.eqb_neq in Hq. split.
  - unfold exec. rewrite furniture_searchText_run, Hq, Hnet.
    unfold settled. rewrite Hok, Hj. repeat split.
  - unfold Part000.searchText. run_script. rewrite Hq. cbn [fst snd].
    fold (text_search_request (trim (textInput s))).
    rewrite Hnet. cbn [fst snd]. rewrite Hok, Hj. repeat split.
Qed.

Lemma missing_results_field_witness :
  trim (textInput (set_textInput "sofa" showing_old)) <> "" /\
  ok (mkResponse 200 "{}" (JsonObject None JUndefined)) = true /\
  resultsCount
    (exec (Furniture.searchText
             (always (mkResponse 200 "{}" (JsonObject None JUndefined))))
          (set_textInput "sofa" showing_old)) = "0 items" /\
  resultsDiv
    (exec (Part000.searchText
             (always (mkResponse 200 "{}" (JsonObject None JUndefined))))
          (set_textInput "sofa" showing_old)) = [].
Proof.
  assert (Hq : trim (textInput (set_textInput "sofa" showing_old)) <> "")
    by discriminate.
  assert (Hok : ok (mkResponse 200 "{}" (JsonObject None JUndefined)) = true)
    by reflexivity.
  destruct (missing_results_field
              (always (mkResponse 200 "{}" (JsonObject None JUndefined)))
              (set_textInput "sofa" showing_old) _ JUndefined
              Hq eq_refl Hok eq_refl) as ((_ & Hc & _) & (Hr & _)).
  split; [exact Hq|]. split; [exact Hok|]. split; [exact Hc | exact Hr].
Defined.

Lemma part001_forEach_render_item items s :
  forEach Part001.render_item items s =
  (inr tt, set_resultsDiv (resultsDiv s ++ map part001_block items) s).
Proof.
  revert s. induction items as [|it r IH]; intros s.
  - simpl. rewrite app_nil_r, set_resultsDiv_id. reflexivity.
  - cbn [forEach map]. unfold bind.
    change (Part001.render_item it s)
      with (@inr exn unit tt,
            set_resultsDiv (resultsDiv s ++ [part001_block it]) s).
    cbv beta iota. rewrite IH. cbn [resultsDiv set_resultsDiv].
    rewrite <- app_assoc. reflexivity.
Qed.

Lemma part001_displayResults_run items s :
  Part001.displayResults items s =
  (inr tt,
   set_resultsDiv
     (match items with
      | [] => [Parsed Part001.no_results_markup]
      | _ => map part001_block items
      end)
     (set_resultsCount (Furniture.count_label (length items)) s)).
Proof.
  unfold Part001.displayResults.
  destruct items as [|it r]; [reflexivity|].
  unfold bind at 1 2. cbn [update length Nat.eqb].
  rewrite part001_forEach_render_item. reflexivity.
Qed.

Lemma result_blocks_map_part001_block l :
  result_blocks (map part001_block l) = length l.
Proof.
  unfold result_blocks. induction l as [|it r IH]; [reflexivity|].
  simpl. now rewrite IH.
Qed.

(** X13.  [displayResults] of part_001 never throws and renders every
    record, in order: as many blocks as records, whatever their
    [image_path], which it does not resolve but puts after [/static/]
    as it is.  A second run on the same list changes nothing. *)
Theorem part001_renders_every_record :
  forall items s,
    outcome (Part001.displayResults items) s = inr tt /\
    result_blocks (resultsDiv (exec (Part001.displayResults items) s)) =
      length items /\
    resultsCount (exec (Part001.displayResults items) s) =
      nat_to_string (length items) ++ " "
      ++ (if (length items =? 1)%nat then "item" else "items") /\
    (items <> [] ->
     resultsDiv (exec (Part001.displayResults items) s) =
       map part001_block items) /\
    exec (Part001.displayResults items)
         (exec (Part001.displayResults items) s) =
      exec (Part001.displayResults items) s.
Proof.
  intros items s. unfold exec, outcome.
  rewrite !part001_displayResults_run.
  cbn [fst snd resultsDiv resultsCount set_resultsDiv set_resultsCount].
  repeat split.
  - destruct items; [reflexivity | apply result_blocks_map_part001_block].
  - destruct items; [congruence | reflexivity].
Qed.

Lemma part001_renders_every_record_witness :
  [no_path; sofa; empty_path] <> [] /\
  result_blocks
    (resultsDiv (exec (Part001.displayResults [no_path; sofa; empty_path])
                      fresh_page)) = 3 /\
  resultsDiv (exec (Part001.displayResults [no_path; sofa; empty_path])
                   fresh_page) =
    map part001_block [no_path; sofa; empty_path].
Proof.
  assert (H : [no_path; sofa; empty_path] <> []) by discriminate.
  destruct (part001_renders_every_record [no_path; sofa; empty_path]
              fresh_page) as (_ & Hb & _ & Hm & _).
  split; [exact H|]. split; [exact Hb | exact (Hm H)].
Defined.

(** ** Escaping in part_001 *)

Lemma start_tags_app_text a b :
  contains_char "<" a = false -> start_tags (a ++ b) = start_tags b.
Proof.
  induction a as [|c a IH]; [reflexivity|].
  cbn [contains_char]. intros H. apply orb_false_iff in H as [Hc Ha].
  cbn [append start_tags]. rewrite Hc. exact (IH Ha).
Qed.

Lemma escapeHtml_no_lt v : contains_char "<" (Part001.escapeHtml v) = false.
Proof. destruct v; try reflexivity; apply serialize_text_no_lt. Qed.

Lemma suggestion_markup_tags v :
  start_tags (Part001.suggestion_markup v) = ["a"].
Proof.
  unfold Part001.suggestion_markup, quoted. rewrite !append_assoc.
  simpl. rewrite start_tags_app_text by first [apply escapeHtml_no_lt | apply serialize_text_no_lt].
  simpl. rewrite start_tags_app_text by first [apply escapeHtml_no_lt | apply serialize_text_no_lt].
  reflexivity.
Qed.

Lemma tags_markup_tags colors rest :
  start_tags (join (map Part001.tag_markup colors) ++ rest) =
  (repeat "span" (length colors) ++ start_tags rest)%list.
Proof.
  induction colors as [|c r IH]; [reflexivity|].
  cbn [map join length repeat].
  unfold Part001.tag_markup at 1, quoted. rewrite !append_assoc.
  simpl. rewrite start_tags_app_text by first [apply escapeHtml_no_lt | apply serialize_text_no_lt].
  simpl. rewrite IH. reflexivity.
Qed.

(** X14.  What [escapeHtml] of part_001 returns for a text holds neither
    [<] nor [>], reads back as that text once its character references
    are decoded, so that two texts never share an escaped form, and is
    the text itself when the text holds none of [&], [<], [>] and the
    no-break space: quotes are not escaped. *)
Theorem escapeHtml_text_properties :
  forall s,
    contains_char "<" (Part001.escapeHtml (JStr s)) = false /\
    contains_char ">" (Part001.escapeHtml (JStr s)) = false /\
    decode_text (Part001.escapeHtml (JStr s)) = s /\
    (forall t, Part001.escapeHtml (JStr s) = Part001.escapeHtml (JStr t) ->
               s = t) /\
    (all_chars plain_char s = true -> Part001.escapeHtml (JStr s) = s).
Proof.
  intros s. split; [apply escapeHtml_no_lt|]. split.
  { apply flat_map_chars_avoids. intros d. each_char d; reflexivity. }
  split; [apply decode_serialize|]. split.
  - intros t H. apply (f_equal decode_text) in H.
    cbn [Part001.escapeHtml to_string] in H.
    now rewrite !decode_serialize in H.
  - cbn [Part001.escapeHtml to_string]. unfold serialize_text.
    induction s as [|c r IH]; [reflexivity|].
    cbn [all_chars flat_map_chars]. intros H.
    apply andb_true_iff in H as [Hc Hr]. rewrite (IH Hr).
    unfold plain_char in Hc. unfold escape_char.
    destruct (Ascii.eqb c "&"); [discriminate|].
    destruct (Ascii.eqb c "<"); [discriminate|].
    destruct (Ascii.eqb c ">"); [discriminate|].
    destruct (Ascii.eqb c nbsp); [discriminate|]. reflexivity.
Qed.

Lemma escapeHtml_text_properties_witness :
  all_chars plain_char ("it's " ++ dq ++ "oak" ++ dq) = true /\
  Part001.escapeHtml (JStr ("it's " ++ dq ++ "oak" ++ dq)) =
    "it's " ++ dq ++ "oak" ++ dq.
Proof.
  assert (H : all_chars plain_char ("it's " ++ dq ++ "oak" ++ dq) = true)
    by reflexivity.
  destruct (escapeHtml_text_properties ("it's " ++ dq ++ "oak" ++ dq))
    as (_ & _ & _ & _ & Hp).
  split; [exact H | exact (Hp H)].
Defined.

(** X15.  The markup part_001 builds for a record opens the tags of its
    template and no other, whatever the title, the description and the
    colours: [h3], [p], two [div] and one [span] per colour.  The price
    is the one value it interpolates without escaping, so this holds
    when the displayed price holds no [<]. *)
Theorem part001_markup_opens_template_tags_only :
  forall it,
    contains_char "<" (Part001.display_price it) = false ->
    start_tags (Part001.info_markup it) =
      (["h3"; "p"; "div"; "div"]
       ++ repeat "span" (length (Furniture.colors_or_empty it)))%list.
Proof.
  intros it Hp. unfold Part001.info_markup, quoted. rewrite !append_assoc.
  simpl. rewrite start_tags_app_text by first [apply escapeHtml_no_lt | apply serialize_text_no_lt].
  simpl. rewrite start_tags_app_text by first [apply escapeHtml_no_lt | apply serialize_text_no_lt].
  simpl. rewrite start_tags_app_text by exact Hp.
  simpl. rewrite tags_markup_tags. simpl. rewrite app_nil_r. reflexivity.
Qed.

Lemma part001_markup_opens_template_tags_only_witness :
  contains_char "<"
    (Part001.display_price
       (mkItem (JStr "<b>Chair</b>") (JStr "<script>") (JStr "b.jpg")
               (JNum 5) JUndefined JUndefined (Some ["<i>"; "red"])))
    = false /\
  start_tags
    (Part001.info_markup
       (mkItem (JStr "<b>Chair</b>") (JStr "<script>") (JStr "b.jpg")
               (JNum 5) JUndefined JUndefined (Some ["<i>"; "red"]))) =
    ["h3"; "p"; "div"; "div"; "span"; "span"].
Proof.
  assert (H : contains_char "<"
                (Part001.display_price
                   (mkItem (JStr "<b>Chair</b>") (JStr "<script>")
                           (JStr "b.jpg") (JNum 5) JUndefined JUndefined
                           (Some ["<i>"; "red"]))) = false) by reflexivity.
  split; [exact H|].
  exact (part001_markup_opens_template_tags_only _ H).
Defined.


(** ** Searches and suggestions of part_001 *)

Lemma part001_searchText_run net s :
  Part001.searchText net s =
  (inr tt,
   if trim (textInput s) =? ""
   then set_alerts (alerts s ++ ["Please enter a text query"]) s
   else part001_settled "Text search error: "
          "Failed to search. Check console for details."
          (net (text_search_request (trim (textInput s))))
          (dispatched (text_search_request (trim (textInput s))) s)).
Proof.
  unfold Part001.searchText, part001_settled, dispatched. run_script.
  destruct (trim (textInput s) =? ""); cbn [fst snd]; [reflexivity|].
  fold (text_search_request (trim (textInput s))).
  destruct (net _) as [|r]; [reflexivity|]. cbn [fst snd].
  destruct (ok r); cbn [negb fst snd]; [|reflexivity].
  destruct (json r) as [| |rs d]; try reflexivity.
  cbn [fst snd]. rewrite part001_displayResults_run. reflexivity.
Qed.

Lemma part001_searchImage_run net s :
  Part001.searchImage net s =
  (inr tt,
   match imageQuery s with
   | [] => set_alerts (alerts s ++ ["Please select an image first"]) s
   | file :: _ =>
       part001_settled "Image search error: "
         "Failed to search by image. Check console for details."
         (net (image_search_request file))
         (dispatched (image_search_request file) s)
   end).
Proof.
  unfold Part001.searchImage, part001_settled, dispatched. run_script.
  destruct (imageQuery s) as [|file rest]; cbn [fst snd]; [reflexivity|].
  fold (image_search_request file).
  destruct (net _) as [|r]; [reflexivity|]. cbn [fst snd].
  destruct (ok r); cbn [negb fst snd]; [|reflexivity].
  destruct (json r) as [| |rs d]; try reflexivity.
  cbn [fst snd]. rewrite part001_displayResults_run. reflexivity.
Qed.

Lemma part001_settled_success log_label notice r rs d s0 :
  ok r = true -> json r = JsonObject rs d ->
  result_blocks
    (resultsDiv (part001_settled log_label notice (Reply r) s0)) =
    length (Furniture.results_or_empty rs) /\
  resultsCount (part001_settled log_label notice (Reply r) s0) =
    Furniture.count_label (length (Furniture.results_or_empty rs)) /\
  alerts (part001_settled log_label notice (Reply r) s0) = alerts s0 /\
  console (part001_settled log_label notice (Reply r) s0) = console s0.
Proof.
  intros Hok Hj. unfold part001_settled. rewrite Hok, Hj.
  cbn [resultsDiv resultsCount alerts console set_resultsDiv
       set_resultsCount].
  repeat split.
  destruct (Furniture.results_or_empty rs);
    [reflexivity | apply result_blocks_map_part001_block].
Qed.

Lemma part001_settled_failure log_label notice reply s0 :
  renders reply = false -> http_error reply = false ->
  resultsDiv (part001_settled log_label notice reply s0) = resultsDiv s0 /\
  resultsCount (part001_settled log_label notice reply s0) =
    resultsCount s0 /\
  alerts (part001_settled log_label notice reply s0) =
    (alerts s0 ++ [notice])%list /\
  exists e,
    console (part001_settled log_label notice reply s0) =
    (console s0 ++ [(log_label ++ exn_to_string e)%string])%list.
Proof.
  unfold part001_settled, renders, http_error.
  destruct reply as [|r].
  { intros _ _. repeat split. now exists FetchError. }
  destruct (ok r); cbn [andb negb]; [|discriminate].
  destruct (json r); intros H _; try discriminate; repeat split.
  - now exists SyntaxError.
  - now exists TypeError.
Qed.

(** X16.  The searches of part_001 on a success whose body is a JSON
    object render every record of [data.results || []], one block each,
    and raise nothing: no alert and no console line, also when a record
    has no [image_path]. *)
Theorem part001_search_success :
  forall net s r rs d,
    ok r = true ->
    json r = JsonObject rs d ->
    (trim (textInput s) <> "" ->
     net (text_search_request (trim (textInput s))) = Reply r ->
     result_blocks (resultsDiv (exec (Part001.searchText net) s)) =
       length (Furniture.results_or_empty rs) /\
     resultsCount (exec (Part001.searchText net) s) =
       Furniture.count_label (length (Furniture.results_or_empty rs)) /\
     alerts (exec (Part001.searchText net) s) = alerts s /\
     console (exec (Part001.searchText net) s) = console s) /\
    (forall file rest,
        imageQuery s = file :: rest ->
        net (image_search_request file) = Reply r ->
        result_blocks (resultsDiv (exec (Part001.searchImage net) s)) =
          length (Furniture.results_or_empty rs) /\
        resultsCount (exec (Part001.searchImage net) s) =
          Furniture.count_label (length (Furniture.results_or_empty rs)) /\
        alerts (exec (Part001.searchImage net) s) = alerts s /\
        console (exec (Part001.searchImage net) s) = console s).
Proof.
  intros net s r rs d Hok Hj. split.
  - intros Hq Hnet. apply String.eqb_neq in Hq. unfold exec.
    rewrite part001_searchText_run, Hq, Hnet. cbn [snd].
    destruct (part001_settled_success "Text search error: "
                "Failed to search. Check console for details." r rs d
                (dispatched (text_search_request (trim (textInput s))) s)
                Hok Hj) as (H1 & H2 & H3 & H4).
    split; [exact H1|]. split; [exact H2|]. split; [exact H3 | exact H4].
  - intros file rest Hf Hnet. unfold exec.
    rewrite part001_searchImage_run, Hf, Hnet. cbn [snd].
    destruct (part001_settled_success "Image search error: "
                "Failed to search by image. Check console for details."
                r rs d (dispatched (image_search_request file) s)
                Hok Hj) as (H1 & H2 & H3 & H4).
    split; [exact H1|]. split; [exact H2|]. split; [exact H3 | exact H4].
Qed.

Lemma part001_search_success_witness :
  ok (mkResponse 200 "" (JsonObject (Some [no_path; sofa]) JUndefined))
    = true /\
  trim (textInput (typed "sofa")) <> "" /\
  result_blocks
    (resultsDiv
       (exec (Part001.searchText
                (always (mkResponse 200 ""
                           (JsonObject (Some [no_path; sofa]) JUndefined))))
             (typed "sofa"))) = 2 /\
  alerts
    (exec (Part001.searchText
             (always (mkResponse 200 ""
                        (JsonObject (Some [no_path; sofa]) JUndefined))))
          (typed "sofa")) = [].
Proof.
  assert (Hok : ok (mkResponse 200 ""
                      (JsonObject (Some [no_path; sofa]) JUndefined)) = true)
    by reflexivity.
  assert (Hq : trim (textInput (typed "sofa")) <> "") by discriminate.
  destruct (part001_search_success
              (always (mkResponse 200 ""
                         (JsonObject (Some [no_path; sofa]) JUndefined)))
              (typed "sofa") _ (Some [no_path; sofa]) JUndefined Hok eq_refl)
    as (Ht & _).
  destruct (Ht Hq eq_refl) as (Hb & _ & Ha & _).
  split; [exact Hok|]. split; [exact Hq|]. split; [exact Hb | exact Ha].
Defined.

(** X17.  The searches of part_001 when the request goes out and fails
    otherwise than by its HTTP status (no reply, a body that is not JSON
    or is [null]): the alert is the fixed notice, which names no error;
    the error goes to the console, one line; the results region and the
    count label are left as they were. *)
Theorem part001_search_failure_is_generic :
  forall net s,
    (trim (textInput s) <> "" ->
     renders (net (text_search_request (trim (textInput s)))) = false ->
     http_error (net (text_search_request (trim (textInput s)))) = false ->
     resultsDiv (exec (Part001.searchText net) s) = resultsDiv s /\
     resultsCount (exec (Part001.searchText net) s) = resultsCount s /\
     alerts (exec (Part001.searchText net) s) =
       (alerts s ++ ["Failed to search. Check console for details."])%list /\
     exists e,
       console (exec (Part001.searchText net) s) =
       (console s ++ [("Text search error: " ++ exn_to_string e)%string])%list) /\
    (forall file rest,
        imageQuery s = file :: rest ->
        renders (net (image_search_request file)) = false ->
        http_error (net (image_search_request file)) = false ->
        resultsDiv (exec (Part001.searchImage net) s) = resultsDiv s /\
        resultsCount (exec (Part001.searchImage net) s) = resultsCount s /\
        alerts (exec (Part001.searchImage net) s) =
          (alerts s
           ++ ["Failed to search by image. Check console for details."])%list /\
        exists e,
          console (exec (Part001.searchImage net) s) =
          (console s
           ++ [("Image search error: " ++ exn_to_string e)%string])%list).
Proof.
  intros net s. split.
  - intros Hq Hr Hh. apply String.eqb_neq in Hq. unfold exec.
    rewrite part001_searchText_run, Hq. cbn [snd].
    destruct (part001_settled_failure "Text search error: "
                "Failed to search. Check console for details." _
                (dispatched (text_search_request (trim (textInput s))) s)
                Hr Hh) as (H1 & H2 & H3 & e & H4).
    split; [exact H1|]. split; [exact H2|]. split; [exact H3|].
    exists e. exact H4.
  - intros file rest Hf Hr Hh. unfold exec.
    rewrite part001_searchImage_run, Hf. cbn [snd].
    destruct (part001_settled_failure "Image search error: "
                "Failed to search by image. Check console for details." _
                (dispatched (image_search_request file) s)
                Hr Hh) as (H1 & H2 & H3 & e & H4).
    split; [exact H1|]. split; [exact H2|]. split; [exact H3|].
    exists e. exact H4.
Qed.

Lemma part001_search_failure_is_generic_witness :
  trim (textInput (set_textInput "sofa" showing_old)) <> "" /\
  renders NetworkFailure = false /\
  http_error NetworkFailure = false /\
  alerts (exec (Part001.searchText (fun _ => NetworkFailure))
               (set_textInput "sofa" showing_old)) =
    ["Failed to search. Check console for details."] /\
  resultsDiv (exec (Part001.searchText (fun _ => NetworkFailure))
                   (set_textInput "sofa" showing_old)) =
    resultsDiv showing_old.
Proof.
  assert (Hq : trim (textInput (set_textInput "sofa" showing_old)) <> "")
    by discriminate.
  assert (Hr : renders NetworkFailure = false) by reflexivity.
  assert (Hh : http_error NetworkFailure = false) by reflexivity.
  destruct (part001_search_failure_is_generic (fun _ => NetworkFailure)
              (set_textInput "sofa" showing_old)) as (Ht & _).
  destruct (Ht Hq Hr Hh) as (H1 & _ & H3 & _).
  split; [exact Hq|]. split; [exact Hr|]. split; [exact Hh|].
  split; [exact H3 | exact H1].
Defined.

(** X18.  [fetchSuggestion] of part_001 decides as the one of
    furniture.js does (the same request, the suggestion shown exactly
    when the reply offers one, no alert), and the markup it shows is
    built from the escaped suggestion: whatever the suggestion, that
    markup opens the [a] tag and no other. *)
Theorem part001_fetchSuggestion_escapes :
  forall net s,
    trim (textInput s) <> "" ->
    suggestionDiv (exec (Part001.fetchSuggestion net) s) =
      match offered (net (suggest_request (trim (textInput s))))
                    (trim (textInput s)) with
      | Some d => [Parsed (Part001.suggestion_markup (JStr d))]
      | None => []
      end /\
    (forall d, start_tags (Part001.suggestion_markup d) = ["a"]) /\
    alerts (exec (Part001.fetchSuggestion net) s) = alerts s /\
    requests (exec (Part001.fetchSuggestion net) s) =
      requests (exec (Furniture.fetchSuggestion net) s) /\
    (suggestionDiv (exec (Part001.fetchSuggestion net) s) = [] <->
     suggestionDiv (exec (Furniture.fetchSuggestion net) s) = []).
Proof.
  intros net s Hq. pose proof (fetchSuggestion_view net s Hq) as HF.
  apply String.eqb_neq in Hq.
  assert (HV : suggestionDiv (exec (Part001.fetchSuggestion net) s) =
               match offered (net (suggest_request (trim (textInput s))))
                             (trim (textInput s)) with
               | Some d => [Parsed (Part001.suggestion_markup (JStr d))]
               | None => []
               end).
  { unfold Part001.fetchSuggestion. run_script. rewrite Hq.
    cbn [fst snd]. fold (suggest_request (trim (textInput s))).
    unfold offered.
    destruct (net _) as [|r]; [reflexivity|]. cbn [fst snd].
    destruct (json r) as [| |rs v]; try reflexivity. cbn [fst snd].
    destruct v as [| |d|z]; try reflexivity; cbn [truthy].
    - destruct (d =? ""); cbn [negb andb fst snd]; [reflexivity|].
      destruct (toLowerCase d =? toLowerCase (trim (textInput s)));
        reflexivity.
    - destruct (z =? 0)%Z; reflexivity. }
  split; [exact HV|]. split; [exact suggestion_markup_tags|].
  split; [|split].
  - unfold Part001.fetchSuggestion. run_script. rewrite Hq. cbn [fst snd].
    destruct (net _) as [|r]; [reflexivity|]. cbn [fst snd].
    destruct (json r) as [| |rs v]; try reflexivity. cbn [fst snd].
    destruct v as [| |d|z]; cbn [truthy]; try reflexivity;
      try (destruct (d =? ""); cbn [negb fst snd]; try reflexivity;
           destruct (toLowerCase d =? toLowerCase (trim (textInput s)));
           reflexivity);
      try (destruct (z =? 0)%Z; reflexivity).
  - unfold Part001.fetchSuggestion, Furniture.fetchSuggestion. run_script.
    rewrite Hq. cbn [fst snd].
    destruct (net _) as [|r]; [reflexivity|]. cbn [fst snd].
    destruct (json r) as [| |rs v]; try reflexivity. cbn [fst snd].
    destruct v as [| |d|z]; cbn [truthy]; try reflexivity;
      try (destruct (d =? ""); cbn [negb fst snd]; try reflexivity;
           destruct (toLowerCase d =? toLowerCase (trim (textInput s)));
           reflexivity);
      try (destruct (z =? 0)%Z; reflexivity).
  - unfold exec at 2. rewrite HV, HF.
    destruct (offered _ _); split; intros H; try discriminate; reflexivity.
Qed.

Lemma part001_fetchSuggestion_escapes_witness :
  trim (textInput (typed "sofe")) <> "" /\
  suggestionDiv
    (exec (Part001.fetchSuggestion
             (always (mkResponse 200 "" (JsonObject None (JStr "<b>sofa")))))
          (typed "sofe")) =
    [Parsed (Part001.suggestion_markup (JStr "<b>sofa"))] /\
  start_tags (Part001.suggestion_markup (JStr "<b>sofa")) = ["a"].
Proof.
  assert (Hq : trim (textInput (typed "sofe")) <> "") by discriminate.
  destruct (part001_fetchSuggestion_escapes
              (always (mkResponse 200 "" (JsonObject None (JStr "<b>sofa"))))
              (typed "sofe") Hq) as (Hv & Ht & _).
  split; [exact Hq|]. split; [exact Hv | exact (Ht (JStr "<b>sofa"))].
Defined.

(** ** HTTP errors *)

(** X19.  On a reply whose status is not a success, [searchText] and
    [searchImage] of furniture.js and of part_001 and [searchText] of
    part_000 raise one alert that gives the status and the body of the
    reply, and leave the results region and the count label as they
    were. *)
Theorem http_error_is_reported :
  forall net s r,
    ok r = false ->
    (trim (textInput s) <> "" ->
     net (text_search_request (trim (textInput s))) = Reply r ->
     (alerts (exec (Furniture.searchText net) s) =
        (alerts s
         ++ [("Error " ++ nat_to_string (status r) ++ ": " ++ text r)%string])%list /\
      resultsDiv (exec (Furniture.searchText net) s) = resultsDiv s /\
      resultsCount (exec (Furniture.searchText net) s) = resultsCount s) /\
     (alerts (exec (Part001.searchText net) s) =
        (alerts s
         ++ [("Error " ++ nat_to_string (status r) ++ ": " ++ text r)%string])%list /\
      resultsDiv (exec (Part001.searchText net) s) = resultsDiv s /\
      resultsCount (exec (Part001.searchText net) s) = resultsCount s) /\
     (alerts (exec (Part000.searchText net) s) =
        (alerts s
         ++ [("Error: " ++ nat_to_string (status r) ++ " - " ++ text r)%string])%list /\
      resultsDiv (exec (Part000.searchText net) s) = resultsDiv s /\
      resultsCount (exec (Part000.searchText net) s) = resultsCount s)) /\
    (forall file rest,
        imageQuery s = file :: rest ->
        net (image_search_request file) = Reply r ->
        (alerts (exec (Furniture.searchImage net) s) =
           (alerts s
            ++ [("Error " ++ nat_to_string (status r) ++ ": " ++ text r)%string])%list /\
         resultsDiv (exec (Furniture.searchImage net) s) = resultsDiv s /\
         resultsCount (exec (Furniture.searchImage net) s) = resultsCount s) /\
        (alerts (exec (Part001.searchImage net) s) =
           (alerts s
            ++ [("Error " ++ nat_to_string (status r) ++ ": " ++ text r)%string])%list /\
         resultsDiv (exec (Part001.searchImage net) s) = resultsDiv s /\
         resultsCount (exec (Part001.searchImage net) s) = resultsCount s)).
Proof.
  intros net s r Hok. split.
  - intros Hq Hnet. apply String.eqb_neq in Hq. unfold exec.
    rewrite furniture_searchText_run, part001_searchText_run, Hq, Hnet.
    unfold settled, part001_settled. rewrite Hok.
    split; [repeat split|]. split; [repeat split|].
    unfold Part000.searchText. run_script. rewrite Hq. cbn [fst snd].
    fold (text_search_request (trim (textInput s))).
    rewrite Hnet. cbn [fst snd]. rewrite Hok. repeat split.
  - intros file rest Hf Hnet. unfold exec.
    rewrite furniture_searchImage_run, part001_searchImage_run, Hf, Hnet.
    unfold settled, part001_settled. rewrite Hok. repeat split.
Qed.

Lemma http_error_is_reported_witness :
  ok server_error = false /\
  trim (textInput (set_textInput "sofa" showing_old)) <> "" /\
  alerts (exec (Furniture.searchText (always server_error))
               (set_textInput "sofa" showing_old)) =
    ["Error 500: Internal Server Error"] /\
  resultsDiv (exec (Furniture.searchText (always server_error))
                   (set_textInput "sofa" showing_old)) =
    resultsDiv showing_old.
Proof.
  assert (Hok : ok server_error = false) by reflexivity.
  assert (Hq : trim (textInput (set_textInput "sofa" showing_old)) <> "")
    by discriminate.
  destruct (http_error_is_reported (always server_error)
              (set_textInput "sofa" showing_old) server_error Hok)
    as (Ht & _).
  destruct (Ht Hq eq_refl) as ((Ha & Hr & _) & _).
  split; [exact Hok|]. split; [exact Hq|]. split; [exact Ha | exact Hr].
Defined.

(** ** Requests and keystrokes *)

(** One event adds at most one to the requests sent and the timers
    armed, taken together, and only when it is an input event. *)
Lemma step_budget net e s :
  one_timer s ->
  length (requests (snd (step net e s)))
  + length (timers (snd (step net e s))) <=
  length (requests s) + length (timers s) + inputs [e].
Proof.
  intros H. destruct e as [v|ms].
  - rewrite (input_step net v s H). cbn. lia.
  - rewrite elapse_step.
    destruct H as [H | (id & due & H & Hd)]; rewrite H; cbn [filter].
    + cbn. lia.
    + destruct (is_due (clock s + ms) (id, due)); cbn [negb forEach].
      * unfold bind.
        match goal with
        | |- context [Furniture.fetchSuggestion net ?st] =>
            destruct (fetchSuggestion_frame net st) as (H1 & H2 & _ & H4 & _);
            destruct (Furniture.fetchSuggestion net st) as [[e|[]] s1]
        end; cbn [fst snd] in *; [discriminate|].
        unfold ret. cbn [snd]. rewrite H2, H4, length_app.
        destruct (trim _ =? ""); cbn; lia.
      * cbn. lia.
Qed.

Lemma run_budget net es :
  forall s,
    one_timer s ->
    length (requests (snd (run net es s)))
    + length (timers (snd (run net es s))) <=
    length (requests s) + length (timers s) + inputs es.
Proof.
  induction es as [|e es IH]; intros s H; [cbn; lia|].
  rewrite run_cons.
  pose proof (step_budget net e s H) as B.
  destruct (step_keeps_one_timer net e s H) as (H1 & H2).
  destruct (step net e s) as [[x|u] s']; cbn [fst snd] in *; [discriminate|].
  specialize (IH s' H2).
  assert (inputs (e :: es) = inputs [e] + inputs es)
    by (destruct e; reflexivity).
  lia.
Qed.

(** X20.  Whatever the sequence of input events and lapses of time, the
    debounced listener of furniture.js never sends more suggestion
    requests than there were input events, one more being possible when
    a timer was already armed at the start. *)
Theorem never_more_requests_than_keystrokes :
  forall net es s,
    one_timer s ->
    length (sent (run net es) s) <= inputs es + length (timers s).
Proof.
  intros net es s H. unfold sent, exec. rewrite length_skipn.
  pose proof (run_budget net es s H). lia.
Qed.

Lemma never_more_requests_than_keystrokes_witness :
  one_timer fresh_page /\
  length
    (sent (run (always (mkResponse 200 "" (JsonObject None JUndefined)))
               [Input "s"; Elapse 400; Input "so"; Elapse 100; Input "sof";
                Elapse 300; Elapse 300])
          fresh_page) <= 3.
Proof.
  assert (H : one_timer fresh_page) by (left; reflexivity).
  split; [exact H|].
  exact (never_more_requests_than_keystrokes
           (always (mkResponse 200 "" (JsonObject None JUndefined)))
           [Input "s"; Elapse 400; Input "so"; Elapse 100; Input "sof";
            Elapse 300; Elapse 300]
           fresh_page H).
Defined.

(** ** The URL of a suggestion request *)

Lemma all_chars_app f a b :
  all_chars f (a ++ b) = all_chars f a && all_chars f b.
Proof.
  induction a as [|c a IH]; [reflexivity|].
  cbn [append all_chars]. rewrite IH. apply andb_assoc.
Qed.

Lemma encode_char_url_safe c : all_chars url_safe_char (encode_char c) = true.
Proof. each_char c; reflexivity. Qed.

Lemma encode_char_no_equal d : contains_char "=" (encode_char d) = false.
Proof. each_char d; reflexivity. Qed.

Lemma encode_char_no_hash d : contains_char "#" (encode_char d) = false.
Proof. each_char d; reflexivity. Qed.

(** X21.  The URL of a suggestion request (furniture.js, line 28) has
    one parameter, [q], whose value is the encoded query; the encoded
    query is made of unreserved characters and percent escapes only, so
    that no [&], [=], [?] or [#] typed by the user reaches the URL. *)
Theorem suggest_request_has_one_parameter :
  forall q,
    query_params (url (suggest_request q)) = [("q", encodeURIComponent q)] /\
    method (suggest_request q) = "GET" /\
    all_chars url_safe_char (encodeURIComponent q) = true /\
    contains_char "&" (encodeURIComponent q) = false /\
    contains_char "=" (encodeURIComponent q) = false /\
    contains_char "?" (encodeURIComponent q) = false /\
    contains_char "#" (encodeURIComponent q) = false.
Proof.
  intros q. split; [|split; [reflexivity|]].
  - unfold query_params, query_of, suggest_request, GET. cbn [url].
    change ("/suggest?q=" ++ encodeURIComponent q)
      with ("/suggest" ++ String "?" ("q=" ++ encodeURIComponent q)).
    rewrite (split_app_sep "?") by reflexivity.
    rewrite (split_whole "?").
    2: { rewrite contains_char_app, encodeURIComponent_no_question.
         reflexivity. }
    rewrite (split_whole "&").
    2: { rewrite contains_char_app, encodeURIComponent_no_amp.
         reflexivity. }
    reflexivity.
  - split.
    { unfold encodeURIComponent.
      induction q as [|c r IH]; [reflexivity|].
      cbn [flat_map_chars]. now rewrite all_chars_app, encode_char_url_safe. }
    split; [apply encodeURIComponent_no_amp|].
    split; [apply flat_map_chars_avoids, encode_char_no_equal|].
    split; [apply encodeURIComponent_no_question|].
    apply flat_map_chars_avoids, encode_char_no_hash.
Qed.

(** ** Prices again *)

(** X22.  The price shown by part_001 is, for every record, the first
    value that is neither absent nor [null] among [final_price],
    [special_price] and [price], else [N/A]; a price of [0] or an empty
    string counts as a value.  furniture.js shows the same chain with the
    sentinel [""] exactly on the records where [special_price] cannot
    matter: those with a [final_price], and those without
    [special_price]. *)
Theorem price_chain_agreement :
  forall it,
    Part001.display_price it = spec_price "N/A" it /\
    (nullish (final_price it) = false \/ nullish (special_price it) = true ->
     Furniture.display_price it = spec_price "" it) /\
    (nullish (final_price it) = true ->
     nullish (special_price it) = false ->
     Furniture.display_price it = to_string (price it ?? JStr "") /\
     spec_price "" it = to_string (special_price it)).
Proof.
  intros it.
  unfold Part001.display_price, Furniture.display_price, spec_price,
    first_present, coalesce.
  destruct (final_price it), (special_price it), (price it);
    cbn [nullish to_string];
    (split; [reflexivity|]);
    (split; [intros [H|H]; first [discriminate | reflexivity]|]);
    intros H1 H2; first [discriminate | split; reflexivity].
Qed.

Lemma price_chain_agreement_witness :
  nullish (final_price chair) = false /\
  Furniture.display_price chair = spec_price "" chair /\
  nullish (final_price on_sale) = true /\
  nullish (special_price on_sale) = false /\
  Furniture.display_price on_sale = "9" /\
  spec_price "" on_sale = "7".
Proof.
  assert (H1 : nullish (final_price chair) = false) by reflexivity.
  assert (H2 : nullish (final_price on_sale) = true) by reflexivity.
  assert (H3 : nullish (special_price on_sale) = false) by reflexivity.
  destruct (price_chain_agreement chair) as (_ & Ha & _).
  destruct (price_chain_agreement on_sale) as (_ & _ & Hb).
  destruct (Hb H2 H3) as (Hf & Hs).
  split; [exact H1|]. split; [exact (Ha (or_introl H1))|].
  split; [exact H2|]. split; [exact H3|]. split; [exact Hf | exact Hs].
Defined.
